(** * Choose-Paper: the review agent and its web endpoint

    A shallow embedding of [review_agent.py] and [server.py].

    - A Python [str] is a list of Unicode code points, a [bytes] value a
      list of bytes.
    - Everything outside the two files (standard input, the file system,
      [requests], [pypdf], [urllib.parse], the chat-completion API) is a
      field of an environment record [Env]; the program reads it and
      leaves a trace of the calls it makes.
    - A Python function that can raise returns a [Result]. *)

From Stdlib Require Import String Ascii List NArith ZArith QArith Bool Lia.
From Stdlib.Strings Require Import Byte.
Import ListNotations.
Close Scope Q_scope.

Set Implicit Arguments.

(** ** Python values *)

Definition codepoint := N.
Definition str := list codepoint.
Definition bytes := list byte.

Module Py.

(** *** UTF-8

    The decoder walks the bytes as CPython's does: a well-formed sequence
    gives a code point, anything else an error range ([Bad]) after which
    decoding resumes at the first byte that was not consumed. *)

Inductive utf8_item :=
| Char (c : codepoint)
| Bad (range : bytes).

Definition is_cont (b : byte) : bool :=
  let n := Byte.to_N b in (128 <=? n)%N && (n <=? 191)%N.

Definition in_range (lo hi : N) (b : byte) : bool :=
  let n := Byte.to_N b in (lo <=? n)%N && (n <=? hi)%N.

Definition low6 (b : byte) : N := N.land (Byte.to_N b) 63.

Definition cp2 (b c1 : byte) : codepoint :=
  N.lor (N.shiftl (N.land (Byte.to_N b) 31) 6) (low6 c1).

Definition cp3 (b c1 c2 : byte) : codepoint :=
  N.lor (N.shiftl (N.land (Byte.to_N b) 15) 12)
        (N.lor (N.shiftl (low6 c1) 6) (low6 c2)).

Definition cp4 (b c1 c2 c3 : byte) : codepoint :=
  N.lor (N.shiftl (N.land (Byte.to_N b) 7) 18)
        (N.lor (N.shiftl (low6 c1) 12)
               (N.lor (N.shiftl (low6 c2) 6) (low6 c3))).

(** The second byte of a three- or four-byte sequence is restricted by
    the lead byte (no overlong forms, no surrogates, nothing above
    U+10FFFF). *)
Definition second_ok (lead second : byte) : bool :=
  let n := Byte.to_N lead in
  if (n =? 224)%N then in_range 160 191 second
  else if (n =? 237)%N then in_range 128 159 second
  else if (n =? 240)%N then in_range 144 191 second
  else if (n =? 244)%N then in_range 128 143 second
  else is_cont second.

Fixpoint utf8_scan (bs : bytes) : list utf8_item :=
  match bs with
  | [] => []
  | b :: rest =>
    let n := Byte.to_N b in
    if (n <? 128)%N then Char n :: utf8_scan rest
    else if (n <? 194)%N then Bad [b] :: utf8_scan rest
    else if (n <? 224)%N then
      match rest with
      | [] => [Bad [b]]
      | c1 :: r1 =>
        if is_cont c1 then Char (cp2 b c1) :: utf8_scan r1
        else Bad [b] :: utf8_scan rest
      end
    else if (n <? 240)%N then
      match rest with
      | [] => [Bad [b]]
      | c1 :: r1 =>
        if second_ok b c1 then
          match r1 with
          | [] => [Bad [b; c1]]
          | c2 :: r2 =>
            if is_cont c2 then Char (cp3 b c1 c2) :: utf8_scan r2
            else Bad [b; c1] :: utf8_scan r1
          end
        else Bad [b] :: utf8_scan rest
      end
    else if (n <? 245)%N then
      match rest with
      | [] => [Bad [b]]
      | c1 :: r1 =>
        if second_ok b c1 then
          match r1 with
          | [] => [Bad [b; c1]]
          | c2 :: r2 =>
            if is_cont c2 then
              match r2 with
              | [] => [Bad [b; c1; c2]]
              | c3 :: r3 =>
                if is_cont c3 then Char (cp4 b c1 c2 c3) :: utf8_scan r3
                else Bad [b; c1; c2] :: utf8_scan r2
              end
            else Bad [b; c1] :: utf8_scan r1
          end
        else Bad [b] :: utf8_scan rest
      end
    else Bad [b] :: utf8_scan rest
  end.

Fixpoint chars (items : list utf8_item) : str :=
  match items with
  | [] => []
  | Char c :: tl => c :: chars tl
  | Bad _ :: tl => chars tl
  end.

Fixpoint has_bad (items : list utf8_item) : bool :=
  match items with
  | [] => false
  | Char _ :: tl => has_bad tl
  | Bad _ :: tl => true
  end.

(** [data.decode("utf-8", errors="ignore")]: error ranges are skipped. *)
Definition decode_ignore (data : bytes) : str := chars (utf8_scan data).

(** [data.decode("utf-8")], the strict handler: [None] stands for
    [UnicodeDecodeError]. *)
Definition decode_strict (data : bytes) : option str :=
  let items := utf8_scan data in
  if has_bad items then None else Some (chars items).

(** A literal of the source: the file is UTF-8, so is the Rocq string. *)
Definition lit (s : string) : str := decode_ignore (list_byte_of_string s).

(** The line feed, ["\n"]. *)
Definition nl : str := [10%N].

(** *** [str] methods *)

(** [str.lower()] per code point.  ASCII capitals move down by 32; U+212A
    (Kelvin) becomes [k] and U+0130 becomes [i] followed by U+0307.  Every
    other code point above U+007F lower-cases to code points above U+007F
    and is kept as it is here, which leaves every comparison against an
    ASCII literal unchanged. *)
Definition lower_cp (c : codepoint) : str :=
  if ((65 <=? c) && (c <=? 90))%N then [(c + 32)%N]
  else if (c =? 8490)%N then [107%N]
  else if (c =? 304)%N then [105%N; 775%N]
  else [c].

Definition lower (s : str) : str := flat_map lower_cp s.

Fixpoint startswith (s prefix : str) {struct prefix} : bool :=
  match prefix, s with
  | [], _ => true
  | _ :: _, [] => false
  | p :: ps, c :: cs => (c =? p)%N && startswith cs ps
  end.

Definition endswith (s suffix : str) : bool :=
  startswith (rev s) (rev suffix).

(** [needle in s]. *)
Fixpoint contains (needle s : str) : bool :=
  startswith s needle ||
  match s with
  | [] => false
  | _ :: tl => contains needle tl
  end.

(** [str.isspace] on one code point: the characters [str.strip()]
    removes. *)
Definition isspace (c : codepoint) : bool :=
  (((9 <=? c) && (c <=? 13)) || ((28 <=? c) && (c <=? 32))
   || (c =? 133) || (c =? 160) || (c =? 5760)
   || ((8192 <=? c) && (c <=? 8202))
   || (c =? 8232) || (c =? 8233) || (c =? 8239) || (c =? 8287)
   || (c =? 12288))%N.

Fixpoint lstrip (s : str) : str :=
  match s with
  | [] => []
  | c :: tl => if isspace c then lstrip tl else s
  end.

Definition rstrip (s : str) : str := rev (lstrip (rev s)).

Definition strip (s : str) : str := rstrip (lstrip s).

(** [sep.join(parts)]. *)
Fixpoint join (sep : str) (parts : list str) : str :=
  match parts with
  | [] => []
  | [p] => p
  | p :: tl => p ++ sep ++ join sep tl
  end.

(** Truthiness of a [str], of a [bytes] and of an optional value. *)
Definition truthy {A} (l : list A) : bool :=
  match l with [] => false | _ => true end.

Definition truthy_opt {A} (o : option (list A)) : bool :=
  match o with Some l => truthy l | None => false end.

(** [x or default] on an optional string. *)
Definition or_else (o : option str) (default : str) : str :=
  match o with
  | Some s => if truthy s then s else default
  | None => default
  end.

(** [a == b] on strings. *)
Fixpoint str_eqb (a b : str) : bool :=
  match a, b with
  | [], [] => true
  | x :: a', y :: b' => (x =? y)%N && str_eqb a' b'
  | _, _ => false
  end.

(** [x in (a, b, ...)]. *)
Definition str_in (x : str) (options : list str) : bool :=
  existsb (str_eqb x) options.

(** Universal newlines, the default of a text-mode [open]: ["\r\n"] and
    a lone ["\r"] are read as ["\n"]. *)
Fixpoint translate_newlines (s : str) : str :=
  match s with
  | [] => []
  | c :: tl =>
    if (c =? 13)%N then
      match tl with
      | c' :: tl' =>
        if (c' =? 10)%N then 10%N :: translate_newlines tl'
        else 10%N :: translate_newlines tl
      | [] => [10%N]
      end
    else c :: translate_newlines tl
  end.

End Py.

(** ** Exceptions, results and the effect monad *)

Inductive exn :=
| ValueError
| KeyError (key : str)
| IndexError
| UnicodeDecodeError
| OSError
| RequestException
| HTTPError (status : Z)
| PdfReadError
| OpenAIError
| SystemExit (msg : str)
| HTTPException (status_code : Z) (detail : str).

Inductive Result (A : Type) :=
| Ok (a : A)
| Raise (e : exn).
Arguments Ok {A} a.
Arguments Raise {A} e.

(** *** [str.format] with keyword arguments

    Replacement fields are plain names ([{domain}]); [{{] and [}}] are the
    escaped braces.  Conversions, format specifications, attribute and index
    access are not used by this program and are rejected like a malformed
    template.  A substituted value is copied as it is: braces inside it are
    not interpreted. *)
Module Format.

Inductive segment :=
| Chr (c : codepoint)
| Field (name : str).

Inductive mode :=
| InText
| InField (name_rev : str).

Definition lbrace : codepoint := 123%N.
Definition rbrace : codepoint := 125%N.

(** Characters a plain field name cannot hold: an opening brace, an
    exclamation mark, a colon, a dot and the two square brackets. *)
Definition special (c : codepoint) : bool :=
  ((c =? 123) || (c =? 33) || (c =? 58) || (c =? 46) || (c =? 91)
   || (c =? 93))%N.

Fixpoint parse (m : mode) (t : str) : option (list segment) :=
  match m, t with
  | InText, [] => Some []
  | InText, c :: tl =>
    if (c =? lbrace)%N then
      match tl with
      | c' :: tl' =>
        if (c' =? lbrace)%N
        then option_map (cons (Chr lbrace)) (parse InText tl')
        else parse (InField []) tl
      | [] => None
      end
    else if (c =? rbrace)%N then
      match tl with
      | c' :: tl' =>
        if (c' =? rbrace)%N
        then option_map (cons (Chr rbrace)) (parse InText tl')
        else None
      | [] => None
      end
    else option_map (cons (Chr c)) (parse InText tl)
  | InField _, [] => None
  | InField n, c :: tl =>
    if (c =? rbrace)%N then
      match n with
      | [] => None
      | _ => option_map (cons (Field (rev n))) (parse InText tl)
      end
    else if special c then None
    else parse (InField (c :: n)) tl
  end.

Fixpoint lookup (kwargs : list (str * str)) (name : str) : option str :=
  match kwargs with
  | [] => None
  | (k, v) :: tl => if Py.str_eqb k name then Some v else lookup tl name
  end.

Fixpoint render (segs : list segment) (kwargs : list (str * str))
  : Result str :=
  match segs with
  | [] => Ok []
  | Chr c :: tl =>
    match render tl kwargs with
    | Ok s => Ok (c :: s)
    | Raise e => Raise e
    end
  | Field name :: tl =>
    match lookup kwargs name with
    | None => Raise (KeyError name)
    | Some v =>
      match render tl kwargs with
      | Ok s => Ok (v ++ s)
      | Raise e => Raise e
      end
    end
  end.

(** The names of the replacement fields, in order. *)
Fixpoint fields (segs : list segment) : list str :=
  match segs with
  | [] => []
  | Chr _ :: tl => fields tl
  | Field name :: tl => name :: fields tl
  end.

(** [template.format(k1=v1, k2=v2, ...)]. *)
Definition format (template : str) (kwargs : list (str * str))
  : Result str :=
  match parse InText template with
  | None => Raise ValueError
  | Some segs => render segs kwargs
  end.

End Format.

(** ** The libraries the program calls *)

(** [urllib.parse]. *)
Module urllib.

Record ParseResult := {
  scheme : str;
  netloc : str;
  path : str;
  params : str;
  query : str;
  fragment : str
}.

(** [s.find(c)] as a split: the text before the first [c] and the text
    after it. *)
Fixpoint split_at (c : codepoint) (s : str) : option (str * str) :=
  match s with
  | [] => None
  | x :: tl =>
    if (x =? c)%N then Some ([], tl)
    else match split_at c tl with
         | Some (a, b) => Some (x :: a, b)
         | None => None
         end
  end.

Definition is_alpha (c : codepoint) : bool :=
  (((65 <=? c) && (c <=? 90)) || ((97 <=? c) && (c <=? 122)))%N.

(** [scheme_chars]: letters, digits, [+], [-] and [.]. *)
Definition scheme_char (c : codepoint) : bool :=
  (is_alpha c || ((48 <=? c) && (c <=? 57))
   || (c =? 43) || (c =? 45) || (c =? 46))%N.

Fixpoint lstrip_c0 (s : str) : str :=
  match s with
  | [] => []
  | c :: tl => if (c <=? 32)%N then lstrip_c0 tl else s
  end.

Definition remove_unsafe (s : str) : str :=
  filter (fun c => negb ((c =? 9) || (c =? 10) || (c =? 13))%N) s.

(** The netloc runs to the first of [/], [?] and [#]. *)
Fixpoint splitnetloc (s : str) : str * str :=
  match s with
  | [] => ([], [])
  | c :: tl =>
    if ((c =? 47) || (c =? 63) || (c =? 35))%N then ([], s)
    else let (a, b) := splitnetloc tl in (c :: a, b)
  end.

Definition has (c : codepoint) (s : str) : bool :=
  existsb (N.eqb c) s.

(** [_splitparams]: the parameters follow the first [;] of the last
    path segment. *)
Fixpoint last_segment_split (seg_rev : str) (acc : str)
  : option (str * str) :=
  match seg_rev with
  | [] => None
  | c :: tl =>
    if (c =? 47)%N then None
    else
      match last_segment_split tl (c :: acc) with
      | Some r => Some r
      | None => if (c =? 59)%N then Some (rev tl, acc) else None
      end
  end.

Definition uses_params : list str :=
  map Py.lit [""; "ftp"; "hdl"; "prospero"; "http"; "imap"; "https";
              "shttp"; "rtsp"; "rtspu"; "sip"; "sips"; "mms"; "sftp";
              "tel"]%string.

(** A reference model of [urlparse], after CPython's [urlsplit]: leading
    control characters and spaces are stripped, tab, CR and LF removed,
    then scheme, netloc, fragment, query and parameters are split off in
    that order.  Of the checks that make [urlsplit] raise, the unbalanced
    bracket is modelled; the validation of a bracketed host and of a
    non-ASCII netloc is not, which is why the program is run against the
    [urlparse] of its environment rather than against this function. *)
Definition urlparse_ref (url : str) : Result ParseResult :=
  let url := remove_unsafe (lstrip_c0 url) in
  let (sch, url) :=
    match split_at 58%N url with
    | Some (c :: before, after) =>
      if is_alpha c && forallb scheme_char (c :: before)
      then (Py.lower (c :: before), after)
      else ([], url)
    | _ => ([], url)
    end in
  let (loc, url) :=
    match url with
    | 47%N :: 47%N :: tl => splitnetloc tl
    | _ => ([], url)
    end in
  if (has 91%N loc && negb (has 93%N loc))
     || (has 93%N loc && negb (has 91%N loc))
  then Raise ValueError
  else
    let (url, frag) :=
      match split_at 35%N url with
      | Some (a, b) => (a, b)
      | None => (url, [])
      end in
    let (url, qry) :=
      match split_at 63%N url with
      | Some (a, b) => (a, b)
      | None => (url, [])
      end in
    let (url, prm) :=
      if Py.str_in sch uses_params then
        match last_segment_split (rev url) [] with
        | Some (a, b) => (a, b)
        | None => (url, [])
        end
      else (url, []) in
    Ok {| scheme := sch; netloc := loc; path := url; params := prm;
          query := qry; fragment := frag |}.

End urllib.

(** [requests]. *)
Module requests.

Record Response := {
  status_code : Z;
  headers : list (str * str);
  content : bytes;
  text : str
}.

(** [Response.raise_for_status()]: an [HTTPError] for a client error
    (400 to 499) or a server error (500 to 599), nothing otherwise. *)
Definition raise_for_status (resp : Response) : Result unit :=
  let c := status_code resp in
  if ((400 <=? c) && (c <? 500))%Z then Raise (HTTPError c)
  else if ((500 <=? c) && (c <? 600))%Z then Raise (HTTPError c)
  else Ok tt.

(** [headers.get(key, default)]: the header names compare without
    case. *)
Fixpoint headers_get (h : list (str * str)) (key default : str) : str :=
  match h with
  | [] => default
  | (k, v) :: tl =>
    if Py.str_eqb (Py.lower k) (Py.lower key) then v
    else headers_get tl key default
  end.

End requests.

(** [pypdf]. *)
Module pypdf.

(** A page is what [page.extract_text()] does on it: it returns text,
    possibly none, or raises. *)
Record PageObject := {
  extract_text : Result (option str)
}.

End pypdf.

(** [openai]. *)
Module openai.

Record Client := {
  api_key : option str;
  base_url : option str
}.

Record ChatCompletionMessage := {
  content : option str
}.

Record Choice := {
  message : ChatCompletionMessage
}.

Record ChatCompletion := {
  choices : list Choice
}.

End openai.

(** A chat message, the dictionary [{"role": ..., "content": ...}]. *)
Record Message := {
  role : str;
  content : str
}.

(** ** The environment and the trace *)

Record Env := {
  (** [sys.stdin.read()] *)
  stdin_read : Result str;
  (** the bytes of a file opened for reading *)
  open_read : str -> Result bytes;
  (** [open(path, "w", encoding="utf-8")]: the file is created, or
      emptied when it exists *)
  open_write : str -> Result unit;
  (** [fp.write(data)] on the file just opened *)
  file_write : str -> str -> Result unit;
  (** closing that file when the [with] block is left, which flushes
      what was written *)
  file_close : str -> Result unit;
  (** [print(line)] on standard output *)
  print : str -> Result unit;
  (** [urllib.parse.urlparse] *)
  urlparse : str -> Result urllib.ParseResult;
  (** [requests.get(url, timeout=t)] *)
  requests_get : str -> Z -> Result requests.Response;
  (** [PdfReader(stream).pages] *)
  PdfReader : bytes -> Result (list pypdf.PageObject);
  (** [OpenAI(api_key=..., base_url=...)] *)
  OpenAI : option str -> option str -> Result openai.Client;
  (** [client.chat.completions.create(model=..., temperature=...,
      messages=...)] *)
  chat_completions_create :
    openai.Client -> str -> Q -> list Message -> Result openai.ChatCompletion
}.

Inductive Event :=
| StdinRead
| FileOpen (path : str)
| FileCreate (path : str)
| FileWrite (path : str) (data : str)
| FileClose (path : str)
| HttpGet (url : str) (timeout : Z)
| PdfParse (data : bytes)
| PageExtract
| ClientNew (api_key base_url : option str)
| ChatCreate (client : openai.Client) (model : str) (temperature : Q)
             (messages : list Message)
| Print (line : str).

(** A computation reads the environment and returns its result with the
    calls it made, oldest first. *)
Definition M (A : Type) : Type := Env -> Result A * list Event.

Definition ret {A} (a : A) : M A := fun _ => (Ok a, []).

Definition raise {A} (e : exn) : M A := fun _ => (Raise e, []).

Definition bind {A B} (m : M A) (k : A -> M B) : M B :=
  fun env =>
    match m env with
    | (Ok a, t1) => let (r, t2) := k a env in (r, t1 ++ t2)
    | (Raise e, t1) => (Raise e, t1)
    end.

(** A call into the environment, logged. *)
Definition call {A} (ev : Event) (f : Env -> Result A) : M A :=
  fun env => (f env, [ev]).

(** [try: m finally: cleanup], which is what a [with] block does with a
    file: the cleanup runs whether [m] returned or raised, and an
    exception of the cleanup replaces the outcome of [m]. *)
Definition finally {A} (m : M A) (cleanup : M unit) : M A :=
  fun env =>
    let (r, t1) := m env in
    match cleanup env with
    | (Ok _, t2) => (r, t1 ++ t2)
    | (Raise e, t2) => (Raise e, t1 ++ t2)
    end.

(** A call into the environment that leaves no trace (a pure library
    function). *)
Definition lift_env {A} (f : Env -> Result A) : M A :=
  fun env => (f env, []).

(** A pure function that can raise. *)
Definition lift {A} (r : Result A) : M A := fun _ => (r, []).

Declare Scope monad_scope.
Delimit Scope monad_scope with monad.
Notation "x <- m ;; k" := (bind m (fun x => k))
  (at level 61, m at next level, right associativity) : monad_scope.
Notation "m ;; k" := (bind m (fun _ => k))
  (at level 61, right associativity) : monad_scope.
Open Scope monad_scope.

Fixpoint mapM {A B} (f : A -> M B) (l : list A) : M (list B) :=
  match l with
  | [] => ret []
  | x :: tl => y <- f x ;; ys <- mapM f tl ;; ret (y :: ys)
  end.

(** ** review_agent.py *)

Module review_agent.

Definition sys_stdin_read : M str := call StdinRead stdin_read.

(** [open(path, "r", encoding="utf-8")] then [fp.read()]: the bytes are
    decoded strictly and the line ends translated. *)
Definition _read_text_file (path : str) : M str :=
  data <- call (FileOpen path) (fun env => open_read env path) ;;
  match Py.decode_strict data with
  | Some s => ret (Py.translate_newlines s)
  | None => raise UnicodeDecodeError
  end.

(** [page.extract_text() or ""]. *)
Definition page_text (page : pypdf.PageObject) : M str :=
  t <- call PageExtract (fun _ => pypdf.extract_text page) ;;
  ret (Py.or_else t []).

Definition _read_pdf_bytes (data : bytes) : M str :=
  reader_pages <- call (PdfParse data) (fun env => PdfReader env data) ;;
  pages <- mapM page_text reader_pages ;;
  ret (Py.join Py.nl pages).

(** [PdfReader(path)] opens the file and parses its bytes. *)
Definition _read_pdf (path : str) : M str :=
  data <- call (FileOpen path) (fun env => open_read env path) ;;
  reader_pages <- call (PdfParse data) (fun env => PdfReader env data) ;;
  pages <- mapM page_text reader_pages ;;
  ret (Py.join Py.nl pages).

Definition read_pdf_bytes (data : bytes) : M str := _read_pdf_bytes data.

Definition _read_from_url (url : str) : M str :=
  resp <- call (HttpGet url 30) (fun env => requests_get env url 30%Z) ;;
  lift (requests.raise_for_status resp) ;;
  let content_type :=
    Py.lower (requests.headers_get (requests.headers resp)
                                   (Py.lit "content-type") []) in
  if Py.contains (Py.lit "pdf") content_type
     || Py.endswith (Py.lower url) (Py.lit ".pdf")
  then _read_pdf_bytes (requests.content resp)
  else ret (requests.text resp).

Definition read_paper (source : str) : M str :=
  if Py.str_eqb source (Py.lit "-") then sys_stdin_read
  else
    parsed <- lift_env (fun env => urlparse env source) ;;
    if Py.str_in (urllib.scheme parsed) [Py.lit "http"; Py.lit "https"]
    then _read_from_url source
    else if Py.endswith (Py.lower source) (Py.lit ".pdf")
    then _read_pdf source
    else _read_text_file source.

Definition template_zh : str :=
  Py.lit "请用中文给出审稿意见，语气严格但公正，领域为{domain}。" ++ Py.nl
  ++ Py.lit "输出采用以下纯文本模板（不要使用 JSON，也不要用代码块）：" ++ Py.nl
  ++ Py.lit "Summary: ..." ++ Py.nl
  ++ Py.lit "Strengths:" ++ Py.nl ++ Py.lit "- ..." ++ Py.nl
  ++ Py.lit "Weaknesses:" ++ Py.nl ++ Py.lit "- ..." ++ Py.nl
  ++ Py.lit "Questions:" ++ Py.nl ++ Py.lit "- ..." ++ Py.nl
  ++ Py.lit "Decision (阅读建议: 精读 / 可选浏览 / 可忽略): ..." ++ Py.nl
  ++ Py.nl ++ Py.lit "论文内容：" ++ Py.nl ++ Py.lit "{paper}".

Definition template_en : str :=
  Py.lit "Provide the review in English, with a strict but fair tone, domain: {domain}."
  ++ Py.nl
  ++ Py.lit "Use this plain-text template (no JSON, no code fences):" ++ Py.nl
  ++ Py.lit "Summary: ..." ++ Py.nl
  ++ Py.lit "Strengths:" ++ Py.nl ++ Py.lit "- ..." ++ Py.nl
  ++ Py.lit "Weaknesses:" ++ Py.nl ++ Py.lit "- ..." ++ Py.nl
  ++ Py.lit "Questions:" ++ Py.nl ++ Py.lit "- ..." ++ Py.nl
  ++ Py.lit "Decision (Reading suggestion: Must Read / Skim Optional / Skip): ..."
  ++ Py.nl
  ++ Py.nl ++ Py.lit "PAPER:" ++ Py.nl ++ Py.lit "{paper}".

Definition build_messages (domain tone paper_text language : str)
  : Result (list Message) :=
  let lang := Py.lower language in
  let template :=
    if Py.startswith lang (Py.lit "zh") then template_zh
    else template_en in
  let system_msg :=
    Py.lit "You are a seasoned reviewer in " ++ domain ++ Py.lit ". "
    ++ Py.lit "Maintain a strict, skeptical, concise tone: " ++ tone
    ++ Py.lit ". "
    ++ Py.lit "Respond using the requested language." in
  match Format.format template
          [(Py.lit "domain", domain); (Py.lit "paper", paper_text)] with
  | Raise e => Raise e
  | Ok user_msg =>
    Ok [ {| role := Py.lit "system"; content := system_msg |};
         {| role := Py.lit "user"; content := user_msg |} ]
  end.

(** [response.choices[0].message.content or ""]. *)
Definition call_model (client : openai.Client) (model : str)
           (messages : list Message) (temperature : Q) : M str :=
  response <- call (ChatCreate client model temperature messages)
                   (fun env => chat_completions_create env client model
                                 temperature messages) ;;
  match openai.choices response with
  | [] => raise IndexError
  | first :: _ =>
    ret (Py.or_else (openai.content (openai.message first)) [])
  end.

(** The namespace [parse_args] returns. *)
Record Namespace := {
  paper : str;
  domain : str;
  tone : str;
  language : str;
  model : str;
  base_url : option str;
  api_key : option str;
  temperature : Q;
  output : option str
}.

Definition main (args : Namespace) : M unit :=
  raw <- read_paper (paper args) ;;
  let paper_text := Py.strip raw in
  if negb (Py.truthy paper_text) then
    raise (SystemExit
             (Py.lit "Paper text is empty; provide a text file or stdin input."))
  else
    client <- call (ClientNew (api_key args) (base_url args))
                   (fun env => OpenAI env (api_key args) (base_url args)) ;;
    messages <- lift (build_messages (domain args) (tone args) paper_text
                                     (language args)) ;;
    review <- call_model client (model args) messages (temperature args) ;;
    match output args with
    | Some out =>
      if Py.truthy out then
        call (FileCreate out) (fun env => open_write env out) ;;
        finally
          (call (FileWrite out review) (fun env => file_write env out review))
          (call (FileClose out) (fun env => file_close env out)) ;;
        call (Print (Py.lit "Saved review to " ++ out))
             (fun env => print env (Py.lit "Saved review to " ++ out))
      else call (Print review) (fun env => print env review)
    | None => call (Print review) (fun env => print env review)
    end.

(** How the interpreter ends the process: status 0 after a normal
    return; a [SystemExit] carrying a string prints it on standard error
    and gives status 1, as does any other uncaught exception (with its
    traceback). *)
Definition exit_status (r : Result unit) : Z :=
  match r with
  | Ok _ => 0
  | Raise _ => 1
  end.

Definition exit_message (r : Result unit) : option str :=
  match r with
  | Raise (SystemExit msg) => Some msg
  | _ => None
  end.

End review_agent.

(** ** server.py *)

Module server.

(** An upload as the handler sees it: its declared name and type, and
    the bytes [await file.read()] returns. *)
Record UploadFile := {
  filename : option str;
  content_type : option str;
  data : bytes
}.

(** The form fields of [POST /review], defaults already applied. *)
Record Form := {
  domain : str;
  language : str;
  model : str;
  base_url : option str;
  api_key : option str;
  tone : str;
  paper_url : option str;
  temperature : Q;
  file : option UploadFile
}.

Record Meta := {
  meta_domain : str;
  meta_language : str;
  meta_model : str;
  meta_base_url : option str;
  paper_source : str;
  text_chars : nat
}.

Record ReviewResponse := {
  review_text : str;
  meta : Meta
}.

Definition is_some {A} (o : option A) : bool :=
  match o with Some _ => true | None => false end.

(** The [if file:] branch of [review] (lines 63 to 73): the paper text
    and the source label of an upload. *)
Definition read_upload (f : UploadFile) : M (str * str) :=
  let data := data f in
  if negb (Py.truthy data) then
    raise (HTTPException 400 (Py.lit "上传文件为空"))
  else
    let filename := Py.or_else (filename f) [] in
    let content_type := Py.lower (Py.or_else (content_type f) []) in
    paper_text <-
      (if Py.endswith (Py.lower filename) (Py.lit ".pdf")
          || Py.contains (Py.lit "pdf") content_type
       then review_agent.read_pdf_bytes data
       else ret (Py.decode_ignore data)) ;;
    ret (paper_text, Py.or_else (Some filename) (Py.lit "uploaded-file")).

(** The [if file: ... elif paper_url: ...] block of [review] (lines 60
    to 76): the paper text and its source label, both empty when neither
    branch runs. *)
Definition read_source (req : Form) : M (str * str) :=
  match file req with
  | Some f => read_upload f
  | None =>
    match paper_url req with
    | Some url =>
      if Py.truthy url then
        paper_text <- review_agent.read_paper url ;;
        ret (paper_text, url)
      else ret ([], [])
    | None => ret ([], [])
    end
  end.

Definition review (req : Form) : M ReviewResponse :=
  if negb (Py.truthy_opt (api_key req)) then
    raise (HTTPException 400 (Py.lit "缺少 api_key"))
  else if negb (is_some (file req) || Py.truthy_opt (paper_url req)) then
    raise (HTTPException 400 (Py.lit "需要提供文件或论文 URL"))
  else
    read <- read_source req ;;
    let paper_text := Py.strip (fst read) in
    let paper_source := snd read in
    if negb (Py.truthy paper_text) then
      raise (HTTPException 400
               (Py.lit "论文内容为空，检查文件或 URL 是否有效"))
    else
      client <- call (ClientNew (api_key req) (base_url req))
                     (fun env => OpenAI env (api_key req) (base_url req)) ;;
      messages <- lift (review_agent.build_messages
                          (domain req) (tone req) paper_text
                          (language req)) ;;
      review_text <- review_agent.call_model client (model req) messages
                                             (temperature req) ;;
      ret {| review_text := review_text;
             meta := {| meta_domain := domain req;
                        meta_language := language req;
                        meta_model := model req;
                        meta_base_url := base_url req;
                        paper_source := paper_source;
                        text_chars := length paper_text |} |}.

(** The status the framework answers with: 200 with the returned body,
    the status of a raised [HTTPException], 500 for any other
    exception. *)
Definition http_status {A} (r : Result A) : Z :=
  match r with
  | Ok _ => 200
  | Raise (HTTPException c _) => c
  | Raise _ => 500
  end.

End server.

(** ** A sample environment

    A small world to run the program in: four files, four URLs, one
    parseable PDF of three pages (the second one blank) and an API that
    answers every request with one choice. *)
Module Sample.

Definition pdf_bytes : bytes := list_byte_of_string "%PDF-1.4 sample".

Definition pages : list pypdf.PageObject :=
  [ {| pypdf.extract_text := Ok (Some (Py.lit "Intro")) |};
    {| pypdf.extract_text := Ok None |};
    {| pypdf.extract_text := Ok (Some (Py.lit "Results")) |} ].

(** ["a\r\nb"], a valid UTF-8 text with a Windows line end. *)
Definition crlf_bytes : bytes := [x61; x0d; x0a; x62]%byte.

(** ["caf"] followed by a lone [0xE9] (Latin-1 for an accented e): not
    valid UTF-8. *)
Definition latin1_bytes : bytes := [x63; x61; x66; xe9]%byte.

Definition url_query : str :=
  Py.lit "http://example.org/paper.pdf?download=1".
Definition url_not_modified : str := Py.lit "http://example.org/cached".
Definition url_upper : str := Py.lit "https://example.org/a.PDF".
Definition url_missing : str := Py.lit "http://example.org/missing".

Definition html_response : requests.Response :=
  {| requests.status_code := 200;
     requests.headers := [(Py.lit "Content-Type", Py.lit "text/html")];
     requests.content := list_byte_of_string "<html>paper</html>";
     requests.text := Py.lit "<html>paper</html>" |}.

Definition not_modified_response : requests.Response :=
  {| requests.status_code := 304;
     requests.headers := [];
     requests.content := [];
     requests.text := [] |}.

Definition pdf_response : requests.Response :=
  {| requests.status_code := 200;
     requests.headers := [];
     requests.content := pdf_bytes;
     requests.text := Py.lit "%PDF-1.4 sample" |}.

Definition missing_response : requests.Response :=
  {| requests.status_code := 404;
     requests.headers := [(Py.lit "Content-Type", Py.lit "text/html")];
     requests.content := list_byte_of_string "not found";
     requests.text := Py.lit "not found" |}.

Definition bytes_eqb (a b : bytes) : bool :=
  Py.str_eqb (map Byte.to_N a) (map Byte.to_N b).

Definition one_choice (text : option str) : openai.ChatCompletion :=
  {| openai.choices :=
       [ {| openai.message := {| openai.content := text |} |} ] |}.

(** The answer of the sample API, ["Summary: fine"]. *)
Definition reply : str := Eval vm_compute in Py.lit "Summary: fine".

(** The model name of the sample runs, ["test-model"]. *)
Definition test_model : str := Eval vm_compute in Py.lit "test-model".

Definition env : Env :=
  {| stdin_read := Ok (Py.lit "Paper from stdin");
     open_read := fun path =>
       if Py.str_eqb path (Py.lit "sample.txt")
       then Ok (list_byte_of_string "Paper body text")
       else if Py.str_eqb path (Py.lit "crlf.txt") then Ok crlf_bytes
       else if Py.str_eqb path (Py.lit "latin1.txt") then Ok latin1_bytes
       else if Py.str_eqb path (Py.lit "draft.pdf") then Ok pdf_bytes
       else Raise OSError;
     open_write := fun _ => Ok tt;
     file_write := fun _ _ => Ok tt;
     file_close := fun _ => Ok tt;
     print := fun _ => Ok tt;
     urlparse := urllib.urlparse_ref;
     requests_get := fun url _ =>
       if Py.str_eqb url url_query then Ok html_response
       else if Py.str_eqb url url_not_modified
       then Ok not_modified_response
       else if Py.str_eqb url url_upper then Ok pdf_response
       else if Py.str_eqb url url_missing then Ok missing_response
       else Raise RequestException;
     PdfReader := fun data =>
       if bytes_eqb data pdf_bytes then Ok pages else Raise PdfReadError;
     OpenAI := fun key url =>
       match key with
       | Some _ => Ok {| openai.api_key := key; openai.base_url := url |}
       | None => Raise OpenAIError
       end;
     chat_completions_create := fun _ _ _ _ =>
       Ok (one_choice (Some reply)) |}.

(** The same world with an API that answers without any choice. *)
Definition env_no_choice : Env :=
  {| stdin_read := stdin_read env;
     open_read := open_read env;
     open_write := open_write env;
     file_write := file_write env;
     file_close := file_close env;
     print := print env;
     urlparse := urlparse env;
     requests_get := requests_get env;
     PdfReader := PdfReader env;
     OpenAI := OpenAI env;
     chat_completions_create := fun _ _ _ _ =>
       Ok {| openai.choices := [] |} |}.

Definition client : openai.Client :=
  {| openai.api_key := Some (Py.lit "sk-test"); openai.base_url := None |}.

Definition upload (name : option str) (type : option str) (payload : bytes)
  : server.UploadFile :=
  {| server.filename := name;
     server.content_type := type;
     server.data := payload |}.

Definition form (key url : option str) (f : option server.UploadFile)
  : server.Form :=
  {| server.domain := Py.lit "ML";
     server.language := Py.lit "zh";
     server.model := Py.lit "gpt-4o-mini";
     server.base_url := None;
     server.api_key := key;
     server.tone := Py.lit "mean reviewer who is strict but fair";
     server.paper_url := url;
     server.temperature := 1 # 5;
     server.file := f |}.

Definition args (source : str) : review_agent.Namespace :=
  {| review_agent.paper := source;
     review_agent.domain := Py.lit "CV";
     review_agent.tone := Py.lit "mean reviewer who is strict but fair";
     review_agent.language := Py.lit "en";
     review_agent.model := Py.lit "test-model";
     review_agent.base_url := None;
     review_agent.api_key := Some (Py.lit "sk-test");
     review_agent.temperature := 1 # 5;
     review_agent.output := None |}.

End Sample.

(** ** Properties used in the statements *)

(** [needle] occurs in [s] as a contiguous run. *)
Definition substring (needle s : str) : Prop :=
  exists before after, s = before ++ needle ++ after.

(** The calls that bring the paper in, and the call to the model. *)
Definition ingestion (ev : Event) : bool :=
  match ev with
  | StdinRead | FileOpen _ | HttpGet _ _ | PdfParse _ | PageExtract => true
  | _ => false
  end.

Definition model_call (ev : Event) : bool :=
  match ev with
  | ChatCreate _ _ _ _ => true
  | _ => false
  end.

(** The same form with another [paper_url]. *)
Definition with_paper_url (req : server.Form) (url : option str)
  : server.Form :=
  {| server.domain := server.domain req;
     server.language := server.language req;
     server.model := server.model req;
     server.base_url := server.base_url req;
     server.api_key := server.api_key req;
     server.tone := server.tone req;
     server.paper_url := url;
     server.temperature := server.temperature req;
     server.file := server.file req |}.

(** [kept] is [data] with some bytes removed. *)
Inductive subseq : bytes -> bytes -> Prop :=
| subseq_nil : subseq [] []
| subseq_keep b kept data : subseq kept data -> subseq (b :: kept) (b :: data)
| subseq_drop b kept data : subseq kept data -> subseq kept (b :: data).

(** The path component of the URL ends in [.pdf]. *)
Definition url_path_is_pdf (url : str) : bool :=
  match urllib.urlparse_ref url with
  | Ok parsed => Py.endswith (urllib.path parsed) (Py.lit ".pdf")
  | Raise _ => false
  end.

(** A status of the 2xx class. *)
Definition is_2xx (status : Z) : bool := ((200 <=? status) && (status <? 300))%Z.

(** The language tag starts with [zh] when case is ignored: its first
    character is [z] or [Z] and its second [h] or [H]. *)
Definition zh_language (language : str) : bool :=
  match language with
  | c1 :: c2 :: _ =>
    (((c1 =? 122) || (c1 =? 90)) && ((c2 =? 104) || (c2 =? 72)))%N
  | _ => false
  end.

(** The string is empty or starts with a character that is not white
    space. *)
Definition head_not_space (s : str) : Prop :=
  match s with
  | [] => True
  | c :: _ => Py.isspace c = false
  end.

(** What every model call of a front end satisfies: its messages were
    built from a paper text that is not empty and is already trimmed. *)
Definition sends_trimmed_text (domain tone language : str) (ev : Event)
  : Prop :=
  match ev with
  | ChatCreate _ _ _ messages =>
    exists paper_text,
      review_agent.build_messages domain tone paper_text language
      = Ok messages
      /\ paper_text <> [] /\ Py.strip paper_text = paper_text
  | _ => True
  end.

(** The calls that open a source: standard input, a file, a URL. *)
Definition opens_source (ev : Event) : bool :=
  match ev with
  | StdinRead | FileOpen _ | HttpGet _ _ => true
  | _ => false
  end.

(** The calls that produce output. *)
Definition is_print (ev : Event) : bool :=
  match ev with
  | Print _ => true
  | _ => false
  end.

(** The calls that touch the output file or standard output. *)
Definition is_output (ev : Event) : bool :=
  match ev with
  | FileCreate _ | FileWrite _ _ | FileClose _ | Print _ => true
  | _ => false
  end.

Definition is_http_get (ev : Event) : bool :=
  match ev with
  | HttpGet _ _ => true
  | _ => false
  end.

(** [filename or "uploaded-file"] for an upload. *)
Definition upload_label (f : server.UploadFile) : str :=
  match server.filename f with
  | Some (c :: name) => c :: name
  | _ => Py.lit "uploaded-file"
  end.

(** The calls the front ends make after the paper is read and before the
    output: building the client and asking the model. *)
Definition client_call (ev : Event) : bool :=
  match ev with
  | ClientNew _ _ | ChatCreate _ _ _ _ => true
  | _ => false
  end.

(** More of the sample world: the text of [sample.txt], an API that is
    down, and a PDF whose second page cannot be read. *)
Module Sample2.

Definition paper_body : str := Eval vm_compute in Py.lit "Paper body text".

Definition sample_txt : str := Eval vm_compute in Py.lit "sample.txt".

Definition draft_pdf : str := Eval vm_compute in Py.lit "draft.pdf".

Definition out_txt : str := Eval vm_compute in Py.lit "review.txt".

Definition latin1_txt : str := Eval vm_compute in Py.lit "latin1.txt".

(** The text of the three sample pages: ["Intro"], two line feeds,
    ["Results"]. *)
Definition pdf_text : str :=
  Eval vm_compute in Py.lit "Intro" ++ Py.nl ++ Py.nl ++ Py.lit "Results".

(** ["caf"], what is left of [latin1_bytes] once the lone [0xE9] is
    dropped. *)
Definition caf : str := Eval vm_compute in Py.lit "caf".

(** A request that carries both the PDF upload [draft.pdf] and a URL. *)
Definition form_both : server.Form :=
  Sample.form (Some Sample.test_model) (Some Sample.url_query)
    (Some (Sample.upload (Some draft_pdf) None Sample.pdf_bytes)).

Definition args_out (source : str) (out : option str)
  : review_agent.Namespace :=
  {| review_agent.paper := source;
     review_agent.domain := review_agent.domain (Sample.args source);
     review_agent.tone := review_agent.tone (Sample.args source);
     review_agent.language := review_agent.language (Sample.args source);
     review_agent.model := Sample.test_model;
     review_agent.base_url := None;
     review_agent.api_key := Some Sample.test_model;
     review_agent.temperature := 1 # 5;
     review_agent.output := out |}.

Definition env_api_down : Env :=
  {| stdin_read := stdin_read Sample.env;
     open_read := open_read Sample.env;
     open_write := open_write Sample.env;
     file_write := file_write Sample.env;
     file_close := file_close Sample.env;
     print := print Sample.env;
     urlparse := urlparse Sample.env;
     requests_get := requests_get Sample.env;
     PdfReader := PdfReader Sample.env;
     OpenAI := OpenAI Sample.env;
     chat_completions_create := fun _ _ _ _ => Raise OpenAIError |}.

(** A disk that is full: the output file is created, writing to it
    fails. *)
Definition env_disk_full : Env :=
  {| stdin_read := stdin_read Sample.env;
     open_read := open_read Sample.env;
     open_write := open_write Sample.env;
     file_write := fun _ _ => Raise OSError;
     file_close := file_close Sample.env;
     print := print Sample.env;
     urlparse := urlparse Sample.env;
     requests_get := requests_get Sample.env;
     PdfReader := PdfReader Sample.env;
     OpenAI := OpenAI Sample.env;
     chat_completions_create := chat_completions_create Sample.env |}.

Definition broken_pages : list pypdf.PageObject :=
  [ {| pypdf.extract_text := Ok (Some paper_body) |};
    {| pypdf.extract_text := Raise PdfReadError |};
    {| pypdf.extract_text := Ok None |} ].

Definition env_broken_page : Env :=
  {| stdin_read := stdin_read Sample.env;
     open_read := open_read Sample.env;
     open_write := open_write Sample.env;
     file_write := file_write Sample.env;
     file_close := file_close Sample.env;
     print := print Sample.env;
     urlparse := urlparse Sample.env;
     requests_get := requests_get Sample.env;
     PdfReader := fun _ => Ok broken_pages;
     OpenAI := OpenAI Sample.env;
     chat_completions_create := chat_completions_create Sample.env |}.

End Sample2.

(** * Proofs *)

Unset Implicit Arguments.

(** ** Strings *)

Lemma str_eqb_eq a b : Py.str_eqb a b = true <-> a = b.
Proof.
  revert b; induction a as [|x a IH]; intros [|y b]; simpl;
    try (split; [discriminate | congruence]); try tauto.
  rewrite andb_true_iff, N.eqb_eq, IH. split.
  - intros [-> ->]; reflexivity.
  - intros [= -> ->]; auto.
Qed.

Lemma str_eqb_refl a : Py.str_eqb a a = true.
Proof. apply str_eqb_eq; reflexivity. Qed.

Lemma startswith_spec s p :
  Py.startswith s p = true <-> exists rest, s = p ++ rest.
Proof.
  revert s; induction p as [|x p IH]; intros s; simpl.
  - split; [intros _; exists s; reflexivity | reflexivity].
  - destruct s as [|c s].
    + split; [discriminate | intros [r [=]]].
    + rewrite andb_true_iff, N.eqb_eq, IH. split.
      * intros [-> [r ->]]. exists r; reflexivity.
      * intros [r [= -> ->]]. eauto.
Qed.

Lemma endswith_spec s p :
  Py.endswith s p = true <-> exists front, s = front ++ p.
Proof.
  unfold Py.endswith. rewrite startswith_spec. split.
  - intros [r H]. exists (rev r).
    rewrite <- (rev_involutive s), H, rev_app_distr, rev_involutive.
    reflexivity.
  - intros [f ->]. exists (rev f). apply rev_app_distr.
Qed.

Lemma contains_spec needle s :
  Py.contains needle s = true <-> substring needle s.
Proof.
  induction s as [|c s IH].
  - simpl. rewrite orb_false_r, startswith_spec. split.
    + intros [r H]. exists [], r. exact H.
    + intros [[|x b] [a H]]; [exists a; exact H | discriminate].
  - cbn [Py.contains]. rewrite orb_true_iff, startswith_spec, IH. split.
    + intros [[r H] | [b [a H]]].
      * exists [], r. exact H.
      * exists (c :: b), a. rewrite H. reflexivity.
    + intros [[|x b] [a H]].
      * left. exists a. exact H.
      * injection H as _ H. right. exists b, a. exact H.
Qed.

(** ** [str.format] *)

Lemma render_total segs kwargs :
  (forall n, In n (Format.fields segs) -> Format.lookup kwargs n <> None) ->
  exists s, Format.render segs kwargs = Ok s.
Proof.
  induction segs as [|[c|name] segs IH]; simpl; intros H.
  - eauto.
  - destruct (IH H) as [s ->]. eauto.
  - destruct (Format.lookup kwargs name) as [v|] eqn:E.
    + destruct IH as [s ->]; [intros n Hn; apply H; auto |]. eauto.
    + exfalso. apply (H name); auto.
Qed.

Lemma render_substring segs kwargs s n v :
  Format.render segs kwargs = Ok s ->
  In n (Format.fields segs) ->
  Format.lookup kwargs n = Some v ->
  substring v s.
Proof.
  revert s; induction segs as [|[c|name] segs IH]; simpl; intros s Hr Hin Hl.
  - contradiction.
  - destruct (Format.render segs kwargs) as [s'|] eqn:E; [|discriminate].
    injection Hr as <-. destruct (IH s' eq_refl Hin Hl) as [b [a ->]].
    exists (c :: b), a. reflexivity.
  - destruct (Format.lookup kwargs name) as [w|] eqn:El; [|discriminate].
    destruct (Format.render segs kwargs) as [s'|] eqn:E; [|discriminate].
    injection Hr as <-. destruct Hin as [-> | Hin].
    + rewrite El in Hl. injection Hl as ->. exists [], s'. reflexivity.
    + destruct (IH s' eq_refl Hin Hl) as [b [a ->]].
      exists (w ++ b), a. rewrite <- app_assoc. reflexivity.
Qed.

Lemma template_en_fields :
  option_map Format.fields (Format.parse Format.InText review_agent.template_en)
  = Some [Py.lit "domain"; Py.lit "paper"].
Proof. vm_compute. reflexivity. Qed.

Lemma template_zh_fields :
  option_map Format.fields (Format.parse Format.InText review_agent.template_zh)
  = Some [Py.lit "domain"; Py.lit "paper"].
Proof. vm_compute. reflexivity. Qed.

(** Formatting either template with the two keyword arguments succeeds,
    and the paper text is copied into the result. *)
Lemma format_template template domain paper_text :
  option_map Format.fields (Format.parse Format.InText template)
  = Some [Py.lit "domain"; Py.lit "paper"] ->
  exists user_msg,
    Format.format template
      [(Py.lit "domain", domain); (Py.lit "paper", paper_text)] = Ok user_msg
    /\ substring paper_text user_msg.
Proof.
  unfold Format.format.
  destruct (Format.parse Format.InText template) as [segs|]; [|discriminate].
  simpl. intros [= Hf].
  destruct (render_total segs
              [(Py.lit "domain", domain); (Py.lit "paper", paper_text)])
    as [s Hs].
  - rewrite Hf. intros n [<- | [<- | []]]; vm_compute; discriminate.
  - exists s. split; [exact Hs |].
    apply (@render_substring segs _ s (Py.lit "paper") paper_text Hs).
    + rewrite Hf. right; left; reflexivity.
    + reflexivity.
Qed.

(** ** The Prompt Builder *)

(** C2: for every domain, tone, language and paper text, [build_messages]
    returns exactly two messages, the system message first and the user
    message second, and the content of the user message contains the whole
    paper text as a contiguous run. *)
Theorem build_messages_two_messages (domain tone paper_text language : str) :
  exists system_msg user_msg,
    review_agent.build_messages domain tone paper_text language
    = Ok [ {| role := Py.lit "system"; content := system_msg |};
           {| role := Py.lit "user"; content := user_msg |} ]
    /\ substring paper_text user_msg.
Proof.
  unfold review_agent.build_messages.
  destruct (Py.startswith (Py.lower language) (Py.lit "zh")).
  - destruct (format_template _ domain paper_text template_zh_fields)
      as [u [-> Hu]]. eauto.
  - destruct (format_template _ domain paper_text template_en_fields)
      as [u [-> Hu]]. eauto.
Qed.

(** Boolean goals over [N] comparisons, settled by linear arithmetic. *)
Ltac n_bool :=
  repeat match goal with
         | H : (_ && _)%bool = true |- _ => apply andb_true_iff in H; destruct H
         | H : (_ || _)%bool = false |- _ => apply orb_false_iff in H; destruct H
         | H : (_ =? _)%N = true |- _ => apply N.eqb_eq in H
         | H : (_ =? _)%N = false |- _ => apply N.eqb_neq in H
         | H : (_ <=? _)%N = true |- _ => apply N.leb_le in H
         | H : (_ <=? _)%N = false |- _ => apply N.leb_gt in H
         | H : (_ <? _)%N = true |- _ => apply N.ltb_lt in H
         | H : (_ <? _)%N = false |- _ => apply N.ltb_ge in H
         end.

Ltac n_cases :=
  repeat match goal with
         | |- context [(?a =? ?b)%N] => destruct (a =? b)%N eqn:?
         | |- context [(?a <=? ?b)%N] => destruct (a <=? b)%N eqn:?
         end;
  n_bool; simpl; try reflexivity; try lia.

(** The first character of a lower-cased string is a given ASCII letter
    (other than [i] and [k]) exactly when the original starts with that
    letter in either case. *)
Lemma lower_head (c x : codepoint) (rest tail : str) :
  (97 <= x <= 122)%N -> x <> 107%N -> x <> 105%N ->
  Py.startswith (Py.lower_cp c ++ rest) (x :: tail)
  = ((c =? x) || (c =? x - 32))%N && Py.startswith rest tail.
Proof.
  intros Hx Hk Hi. unfold Py.lower_cp.
  destruct ((65 <=? c) && (c <=? 90))%N eqn:E1;
    [| destruct (c =? 8490)%N eqn:E2; [| destruct (c =? 304)%N eqn:E3]];
    cbn [app Py.startswith].
  - f_equal. n_cases.
  - f_equal. n_cases.
  - replace (105 =? x)%N with false by (symmetry; apply N.eqb_neq; lia).
    replace ((c =? x) || (c =? x - 32))%N with false; [reflexivity |].
    symmetry. n_cases.
  - f_equal. apply andb_false_iff in E1. destruct E1; n_cases.
Qed.

(** [language.lower().startswith("zh")] is the case-blind test on the
    first two characters. *)
Lemma startswith_zh (language : str) :
  Py.startswith (Py.lower language) (Py.lit "zh") = zh_language language.
Proof.
  change (Py.lit "zh") with [122%N; 104%N].
  destruct language as [|c1 [|c2 l]]; unfold Py.lower; cbn [flat_map].
  - reflexivity.
  - rewrite lower_head by lia. simpl. apply andb_false_r.
  - rewrite !lower_head by lia. simpl. rewrite andb_true_r. reflexivity.
Qed.

(** The two templates never format to the same text. *)
Lemma templates_differ (domain paper_text : str) :
  Format.format review_agent.template_zh
    [(Py.lit "domain", domain); (Py.lit "paper", paper_text)]
  <> Format.format review_agent.template_en
       [(Py.lit "domain", domain); (Py.lit "paper", paper_text)].
Proof. vm_compute. discriminate. Qed.

(** C3: [build_messages] formats the Chinese template exactly when the
    language, case ignored, starts with [zh], and the English template for
    every other language, the empty one included; the two templates give
    different user messages, so the choice shows in the result. *)
Theorem build_messages_language (domain tone paper_text language : str) :
  exists system_msg user_msg,
    review_agent.build_messages domain tone paper_text language
    = Ok [ {| role := Py.lit "system"; content := system_msg |};
           {| role := Py.lit "user"; content := user_msg |} ]
    /\ Format.format
         (if zh_language language then review_agent.template_zh
          else review_agent.template_en)
         [(Py.lit "domain", domain); (Py.lit "paper", paper_text)]
       = Ok user_msg
    /\ Format.format review_agent.template_zh
         [(Py.lit "domain", domain); (Py.lit "paper", paper_text)]
       <> Format.format review_agent.template_en
            [(Py.lit "domain", domain); (Py.lit "paper", paper_text)].
Proof.
  pose proof (templates_differ domain paper_text) as D.
  unfold review_agent.build_messages. rewrite startswith_zh.
  destruct (zh_language language).
  - destruct (format_template _ domain paper_text template_zh_fields)
      as [u [E _]]. rewrite E in *.
    eexists _, u. repeat split. exact D.
  - destruct (format_template _ domain paper_text template_en_fields)
      as [u [E _]]. rewrite E in *.
    eexists _, u. repeat split. exact D.
Qed.

(** The boundary cases of the language test. *)
Example zh_language_cases :
  map zh_language
      (map Py.lit ["zh"; "zh-CN"; "zh_TW"; "ZH"; "Zh"; "en-US"; ""; "fr";
                   "z"; "en"; " zh"]%string)
  = [true; true; true; true; true; false; false; false; false; false; false].
Proof. reflexivity. Qed.

Example build_messages_selects_by_language :
  map (fun l => Py.startswith (Py.lower (Py.lit l)) (Py.lit "zh"))
      ["zh"; "zh-CN"; "zh_TW"; "ZH"; "en-US"; ""; "fr"]%string
  = [true; true; true; true; false; false; false].
Proof. reflexivity. Qed.

(** ** The monad *)

Lemma bind_ok {A B} (m : M A) (k : A -> M B) env a t :
  m env = (Ok a, t) ->
  bind m k env = (fst (k a env), t ++ snd (k a env)).
Proof. unfold bind. intros ->. destruct (k a env); reflexivity. Qed.

Lemma bind_raise {A B} (m : M A) (k : A -> M B) env e t :
  m env = (Raise e, t) -> bind m k env = (Raise e, t).
Proof. unfold bind. intros ->. reflexivity. Qed.

(** ** The PDF Extractor *)

Lemma join_length (sep : str) (parts : list str) :
  length (Py.join sep parts)
  = list_sum (map (@length codepoint) parts)
    + length sep * (length parts - 1).
Proof.
  induction parts as [|p [|q tl] IH].
  - simpl. lia.
  - simpl. lia.
  - change (Py.join sep (p :: q :: tl))
      with (p ++ sep ++ Py.join sep (q :: tl)).
    rewrite !length_app, IH. simpl. lia.
Qed.

Lemma join_blank (parts : list str) :
  (forall p, In p parts -> p = []) ->
  Py.join Py.nl parts = repeat 10%N (length parts - 1).
Proof.
  induction parts as [|p [|q tl] IH]; intros H.
  - reflexivity.
  - simpl. apply H. left; reflexivity.
  - change (Py.join Py.nl (p :: q :: tl))
      with (p ++ Py.nl ++ Py.join Py.nl (q :: tl)).
    rewrite IH by (intros x Hx; apply H; right; exact Hx).
    rewrite (H p) by (left; reflexivity). simpl.
    rewrite Nat.sub_0_r. reflexivity.
Qed.

(** The comprehension [[page.extract_text() or "" for page in pages]] on
    pages whose extraction returns. *)
Lemma page_texts_ok (pages : list pypdf.PageObject)
      (texts : list (option str)) env :
  map pypdf.extract_text pages = map Ok texts ->
  fst (mapM review_agent.page_text pages env)
  = Ok (map (fun t => Py.or_else t []) texts).
Proof.
  revert texts; induction pages as [|pg pages IH]; intros [|t texts] H;
    try discriminate.
  - reflexivity.
  - simpl in H. injection H as Hpg Hrest. specialize (IH texts Hrest).
    cbn [mapM]. unfold bind at 1.
    unfold review_agent.page_text at 1. unfold bind at 1, call, ret.
    rewrite Hpg. cbn [fst snd app].
    unfold bind at 1.
    destruct (mapM review_agent.page_text pages env) as [r tr].
    simpl in IH. subst r. reflexivity.
Qed.

(** The extractor on a document whose pages all yield a result: the page
    texts, in page order, joined by line feeds. *)
Lemma read_pdf_bytes_joins (env : Env) (data : bytes)
        (pages : list pypdf.PageObject) (texts : list (option str)) :
  PdfReader env data = Ok pages ->
  map pypdf.extract_text pages = map Ok texts ->
  let page_strings := map (fun t => Py.or_else t []) texts in
  fst (review_agent.read_pdf_bytes data env)
  = Ok (Py.join Py.nl page_strings)
  /\ length page_strings = length pages
  /\ length (Py.join Py.nl page_strings)
     = list_sum (map (@length codepoint) page_strings) + (length pages - 1)
  /\ ((forall t, In t texts -> t = None \/ t = Some []) ->
      Py.join Py.nl page_strings = repeat 10%N (length pages - 1)).
Proof.
  intros Hparse Htexts page_strings.
  assert (Hlen : length page_strings = length pages).
  { unfold page_strings. rewrite length_map.
    rewrite <- (length_map Ok texts), <- Htexts, length_map. reflexivity. }
  repeat split.
  - unfold review_agent.read_pdf_bytes, review_agent._read_pdf_bytes.
    unfold bind at 1, call. rewrite Hparse.
    pose proof (page_texts_ok pages texts env Htexts) as Hp.
    unfold bind at 1.
    destruct (mapM review_agent.page_text pages env) as [r tr].
    simpl in Hp. subst r. reflexivity.
  - exact Hlen.
  - rewrite join_length, Hlen. simpl. lia.
  - intros Hblank. rewrite <- Hlen. apply join_blank.
    intros p Hp. unfold page_strings in Hp. apply in_map_iff in Hp.
    destruct Hp as [t [<- Ht]].
    destruct (Hblank t Ht) as [-> | ->]; reflexivity.
Qed.

(** ** The Source Reader: URLs *)

Lemma raise_for_status_spec (resp : requests.Response) :
  let code := requests.status_code resp in
  ((400 <= code < 600)%Z ->
   requests.raise_for_status resp = Raise (HTTPError code))
  /\ (~ (400 <= code < 600)%Z -> requests.raise_for_status resp = Ok tt).
Proof.
  unfold requests.raise_for_status. cbv zeta.
  destruct ((400 <=? requests.status_code resp)
            && (requests.status_code resp <? 500))%Z eqn:E1;
    [| destruct ((500 <=? requests.status_code resp)
                 && (requests.status_code resp <? 600))%Z eqn:E2].
  - split; [reflexivity |]. intros H. exfalso. apply H.
    apply andb_true_iff in E1. lia.
  - split; [reflexivity |]. intros H. exfalso. apply H.
    apply andb_true_iff in E2. lia.
  - split; [| reflexivity]. intros H. exfalso.
    apply andb_false_iff in E1. apply andb_false_iff in E2. lia.
Qed.

(** One run of [_read_from_url] on a URL the server answers. *)
Lemma read_from_url_run (env : Env) (url : str) (resp : requests.Response) :
  requests_get env url 30%Z = Ok resp ->
  review_agent._read_from_url url env
  = match requests.raise_for_status resp with
    | Raise e => (Raise e, [HttpGet url 30])
    | Ok _ =>
      if Py.contains (Py.lit "pdf")
           (Py.lower (requests.headers_get (requests.headers resp)
                                           (Py.lit "content-type") []))
         || Py.endswith (Py.lower url) (Py.lit ".pdf")
      then (fst (review_agent._read_pdf_bytes (requests.content resp) env),
            HttpGet url 30
            :: snd (review_agent._read_pdf_bytes (requests.content resp) env))
      else (Ok (requests.text resp), [HttpGet url 30])
    end.
Proof.
  intros H. unfold review_agent._read_from_url.
  unfold bind at 1, call. rewrite H. unfold bind at 1, lift.
  destruct (requests.raise_for_status resp) as [[]|e]; [| reflexivity].
  cbn [app].
  destruct (Py.contains _ _ || Py.endswith _ _).
  - destruct (review_agent._read_pdf_bytes (requests.content resp) env).
    reflexivity.
  - reflexivity.
Qed.

(** C1, as the code has it: for a URL the server answers,
    [_read_from_url] issues one GET with a timeout of 30 seconds; it raises
    [HTTPError] exactly for a status from 400 to 599; for any other status
    it hands the response bytes to the PDF Extractor if and only if the
    lower-cased content-type header contains [pdf] or the lower-cased URL
    string as a whole ends in [.pdf], and returns the response text
    otherwise. *)
Theorem read_from_url_routes (env : Env) (url : str)
        (resp : requests.Response) :
  requests_get env url 30%Z = Ok resp ->
  let code := requests.status_code resp in
  let content_type :=
    Py.lower (requests.headers_get (requests.headers resp)
                                   (Py.lit "content-type") []) in
  let pdf := review_agent._read_pdf_bytes (requests.content resp) env in
  let run := review_agent._read_from_url url env in
  (exists rest, snd run = HttpGet url 30 :: rest)
  /\ ((400 <= code < 600)%Z ->
      run = (Raise (HTTPError code), [HttpGet url 30]))
  /\ (~ (400 <= code < 600)%Z ->
      (substring (Py.lit "pdf") content_type
       \/ (exists front, Py.lower url = front ++ Py.lit ".pdf") ->
       run = (fst pdf, HttpGet url 30 :: snd pdf)
       /\ In (PdfParse (requests.content resp)) (snd run))
      /\ (~ (substring (Py.lit "pdf") content_type
             \/ (exists front, Py.lower url = front ++ Py.lit ".pdf")) ->
          run = (Ok (requests.text resp), [HttpGet url 30]))).
Proof.
  intros H code content_type pdf run.
  pose proof (read_from_url_run env url resp H) as R.
  destruct (raise_for_status_spec resp) as [Hbad Hgood].
  fold code in Hbad, Hgood. fold content_type in R. fold pdf in R.
  fold run in R.
  assert (Hcond : Py.contains (Py.lit "pdf") content_type
                  || Py.endswith (Py.lower url) (Py.lit ".pdf") = true
                  <-> substring (Py.lit "pdf") content_type
                      \/ (exists front, Py.lower url = front ++ Py.lit ".pdf")).
  { rewrite orb_true_iff, contains_spec, endswith_spec. tauto. }
  split; [| split].
  - rewrite R. destruct (requests.raise_for_status resp); [| simpl; eauto].
    destruct (_ || _); simpl; eauto.
  - intros Hc. rewrite R, (Hbad Hc). reflexivity.
  - intros Hc. rewrite (Hgood Hc) in R. split.
    + intros Hp. apply Hcond in Hp. rewrite Hp in R. split; [exact R |].
      rewrite R. right. unfold pdf, review_agent._read_pdf_bytes.
      unfold bind at 1, call.
      destruct (PdfReader env (requests.content resp)).
      * destruct (bind _ _ env). left; reflexivity.
      * left; reflexivity.
    + intros Hp. destruct (_ || _) eqn:E in R; [| exact R].
      exfalso. apply Hp, Hcond. exact E.
Qed.

Lemma read_from_url_routes_witness :
  review_agent._read_from_url Sample.url_upper Sample.env
  = (Ok (Py.lit "Intro" ++ Py.nl ++ Py.nl ++ Py.lit "Results"),
     [HttpGet Sample.url_upper 30; PdfParse Sample.pdf_bytes;
      PageExtract; PageExtract; PageExtract]).
Proof.
  refine (proj1 (proj1 (proj2 (proj2
            (read_from_url_routes Sample.env Sample.url_upper
               Sample.pdf_response eq_refl)) _) _)).
  - simpl. lia.
  - right. exists (Py.lit "https://example.org/a"). reflexivity.
Defined.

(** C1 as stated fails twice.  The path of
    [http://example.org/paper.pdf?download=1] ends in [.pdf], the answer is
    a 200 without [pdf] in its content type, and the body is returned as
    text: no PDF is parsed.  And a 304 answer, which is not of the 2xx
    class, raises nothing. *)
Lemma read_from_url_counterexample :
  (url_path_is_pdf Sample.url_query = true
   /\ requests_get Sample.env Sample.url_query 30%Z = Ok Sample.html_response
   /\ is_2xx (requests.status_code Sample.html_response) = true
   /\ review_agent._read_from_url Sample.url_query Sample.env
      = (Ok (requests.text Sample.html_response),
         [HttpGet Sample.url_query 30]))
  /\ (requests_get Sample.env Sample.url_not_modified 30%Z
      = Ok Sample.not_modified_response
      /\ is_2xx (requests.status_code Sample.not_modified_response) = false
      /\ review_agent._read_from_url Sample.url_not_modified Sample.env
         = (Ok (requests.text Sample.not_modified_response),
            [HttpGet Sample.url_not_modified 30])).
Proof. repeat split; vm_compute; reflexivity. Qed.

(** ** The Source Reader: dispatch *)

Lemma str_in_spec (x : str) (options : list str) :
  Py.str_in x options = true <-> In x options.
Proof.
  unfold Py.str_in. rewrite existsb_exists. split.
  - intros [y [Hy E]]. apply str_eqb_eq in E. subst y. exact Hy.
  - intros H. exists x. split; [exact H | apply str_eqb_refl].
Qed.

Lemma translate_newlines_id (s : str) :
  ~ In 13%N s -> Py.translate_newlines s = s.
Proof.
  induction s as [|c s IH]; intros H.
  - reflexivity.
  - cbn [Py.translate_newlines]. destruct (c =? 13)%N eqn:E.
    + exfalso. apply H. left. apply N.eqb_eq in E. congruence.
    + rewrite IH; [reflexivity |]. intros Hin. apply H. right. exact Hin.
Qed.

Lemma read_text_file_run (env : Env) (path : str) (data : bytes) :
  open_read env path = Ok data ->
  review_agent._read_text_file path env
  = (match Py.decode_strict data with
     | Some text => Ok (Py.translate_newlines text)
     | None => Raise UnicodeDecodeError
     end, [FileOpen path]).
Proof.
  intros H. unfold review_agent._read_text_file, bind, call. rewrite H.
  destruct (Py.decode_strict data); reflexivity.
Qed.

Lemma read_pdf_run (env : Env) (path : str) (data : bytes) :
  open_read env path = Ok data ->
  review_agent._read_pdf path env
  = (fst (review_agent._read_pdf_bytes data env),
     FileOpen path :: snd (review_agent._read_pdf_bytes data env)).
Proof.
  intros H. unfold review_agent._read_pdf, review_agent._read_pdf_bytes.
  unfold bind at 1, call at 1. rewrite H.
  destruct (bind _ _ env). reflexivity.
Qed.

(** C5, as the code has it: [read_paper] tries its cases in a fixed
    order.  The source [-] reads standard input.  Any other source is
    parsed as a URL first, and one with scheme [http] or [https] is
    fetched.  Otherwise a source whose lower-cased form ends in [.pdf] goes
    to the PDF Extractor, on the bytes of that file.  Otherwise the file is
    read as strict UTF-8 text in universal-newlines mode: the decoded text
    is returned untrimmed with every CR LF and every lone CR turned into
    LF, hence exactly as decoded when it holds no CR. *)
Theorem read_paper_dispatch (env : Env) (source : str) :
  (source = Py.lit "-" ->
   review_agent.read_paper source env = (stdin_read env, [StdinRead]))
  /\ (source <> Py.lit "-" ->
      forall parsed, urlparse env source = Ok parsed ->
      let url_scheme :=
        In (urllib.scheme parsed) [Py.lit "http"; Py.lit "https"] in
      let pdf_suffix :=
        exists front, Py.lower source = front ++ Py.lit ".pdf" in
      (url_scheme ->
       review_agent.read_paper source env
       = review_agent._read_from_url source env)
      /\ (~ url_scheme -> pdf_suffix ->
          forall data, open_read env source = Ok data ->
          review_agent.read_paper source env
          = (fst (review_agent.read_pdf_bytes data env),
             FileOpen source
             :: snd (review_agent.read_pdf_bytes data env)))
      /\ (~ url_scheme -> ~ pdf_suffix ->
          forall data text,
            open_read env source = Ok data ->
            Py.decode_strict data = Some text ->
            review_agent.read_paper source env
            = (Ok (Py.translate_newlines text), [FileOpen source])
            /\ (~ In 13%N text ->
                review_agent.read_paper source env
                = (Ok text, [FileOpen source])))).
Proof.
  split.
  - intros ->. reflexivity.
  - intros Hs parsed Hp url_scheme pdf_suffix.
    assert (R : review_agent.read_paper source env
                = if Py.str_in (urllib.scheme parsed)
                       [Py.lit "http"; Py.lit "https"]
                  then review_agent._read_from_url source env
                  else if Py.endswith (Py.lower source) (Py.lit ".pdf")
                       then review_agent._read_pdf source env
                       else review_agent._read_text_file source env).
    { unfold review_agent.read_paper.
      destruct (Py.str_eqb source (Py.lit "-")) eqn:E.
      - apply str_eqb_eq in E. contradiction.
      - unfold bind, lift_env. rewrite Hp.
        destruct (Py.str_in _ _).
        + destruct (review_agent._read_from_url source env); reflexivity.
        + destruct (Py.endswith _ _).
          * destruct (review_agent._read_pdf source env); reflexivity.
          * destruct (review_agent._read_text_file source env); reflexivity. }
    assert (Hu : Py.str_in (urllib.scheme parsed)
                   [Py.lit "http"; Py.lit "https"] = true <-> url_scheme)
      by apply str_in_spec.
    assert (Hpdf : Py.endswith (Py.lower source) (Py.lit ".pdf") = true
                   <-> pdf_suffix) by apply endswith_spec.
    split; [| split].
    + intros H. apply Hu in H. rewrite R, H. reflexivity.
    + intros Hn H data Hd.
      destruct (Py.str_in _ _); [exfalso; apply Hn, Hu; reflexivity |].
      apply Hpdf in H. rewrite R, H. apply read_pdf_run. exact Hd.
    + intros Hn Hnp data text Hd Ht.
      destruct (Py.str_in _ _); [exfalso; apply Hn, Hu; reflexivity |].
      destruct (Py.endswith _ _);
        [exfalso; apply Hnp, Hpdf; reflexivity |].
      rewrite R, (read_text_file_run env source data Hd), Ht.
      split; [reflexivity |].
      intros Hcr. rewrite translate_newlines_id by exact Hcr. reflexivity.
Qed.

Lemma read_paper_dispatch_witness :
  review_agent.read_paper (Py.lit "sample.txt") Sample.env
  = (Ok (Py.lit "Paper body text"), [FileOpen (Py.lit "sample.txt")]).
Proof.
  refine (proj2 (proj2 (proj2
            (proj2 (read_paper_dispatch Sample.env (Py.lit "sample.txt"))
                   _ _ eq_refl)) _ _
            (list_byte_of_string "Paper body text")
            (Py.lit "Paper body text") eq_refl eq_refl) _).
  - vm_compute. discriminate.
  - vm_compute. intros [H | [H | []]]; discriminate.
  - intros [front H]. apply (f_equal (@rev codepoint)) in H.
    rewrite rev_app_distr in H. vm_compute in H. discriminate.
  - vm_compute. intuition discriminate.
Defined.

(** C5 as stated fails on a text file with a Windows line end: the file
    holds [a], CR, LF, [b], which is valid UTF-8, and [read_paper] returns
    [a], LF, [b]. *)
Lemma read_paper_text_counterexample :
  urlparse Sample.env (Py.lit "crlf.txt")
  = Ok {| urllib.scheme := []; urllib.netloc := [];
          urllib.path := Py.lit "crlf.txt"; urllib.params := [];
          urllib.query := []; urllib.fragment := [] |}
  /\ Py.endswith (Py.lower (Py.lit "crlf.txt")) (Py.lit ".pdf") = false
  /\ open_read Sample.env (Py.lit "crlf.txt") = Ok Sample.crlf_bytes
  /\ Py.decode_strict Sample.crlf_bytes = Some [97; 13; 10; 98]%N
  /\ fst (review_agent.read_paper (Py.lit "crlf.txt") Sample.env)
     = Ok [97; 10; 98]%N.
Proof. repeat split; vm_compute; reflexivity. Qed.

(** ** [str.strip] *)

Lemma lstrip_head (s : str) : head_not_space (Py.lstrip s).
Proof.
  induction s as [|c s IH]; simpl; [exact I |].
  destruct (Py.isspace c) eqn:E; [exact IH | exact E].
Qed.

Lemma lstrip_fixed (s : str) : head_not_space s -> Py.lstrip s = s.
Proof. destruct s as [|c s]; simpl; [reflexivity | intros ->; reflexivity]. Qed.

Lemma lstrip_split (s : str) :
  exists spaces, s = spaces ++ Py.lstrip s.
Proof.
  induction s as [|c s [w IH]]; simpl.
  - exists []. reflexivity.
  - destruct (Py.isspace c).
    + exists (c :: w). simpl. rewrite <- IH. reflexivity.
    + exists []. reflexivity.
Qed.

Lemma rstrip_head (s : str) : head_not_space s -> head_not_space (Py.rstrip s).
Proof.
  unfold Py.rstrip. intros H.
  destruct (lstrip_split (rev s)) as [w Hw].
  assert (E : s = rev (Py.lstrip (rev s)) ++ rev w).
  { rewrite <- rev_app_distr, <- Hw, rev_involutive. reflexivity. }
  destruct (rev (Py.lstrip (rev s))) as [|c u]; [exact I |].
  rewrite E in H. exact H.
Qed.

(** Trimming twice is trimming once. *)
Lemma strip_idempotent (s : str) : Py.strip (Py.strip s) = Py.strip s.
Proof.
  unfold Py.strip.
  rewrite (lstrip_fixed (Py.rstrip (Py.lstrip s)))
    by (apply rstrip_head, lstrip_head).
  unfold Py.rstrip. rewrite rev_involutive.
  rewrite (lstrip_fixed (Py.lstrip (rev (Py.lstrip s)))) by apply lstrip_head.
  reflexivity.
Qed.

Lemma truthy_nonempty {A} (l : list A) : Py.truthy l = true <-> l <> [].
Proof. destruct l; simpl; split; congruence. Qed.

(** ** Traces *)

Lemma bind_trace {A B} (P : Event -> Prop) (m : M A) (k : A -> M B) env :
  Forall P (snd (m env)) ->
  (forall a, fst (m env) = Ok a -> Forall P (snd (k a env))) ->
  Forall P (snd (bind m k env)).
Proof.
  unfold bind. destruct (m env) as [[a|e] t]; simpl; intros Hm Hk.
  - specialize (Hk a eq_refl). destruct (k a env) as [r t2]. simpl in *.
    apply Forall_app. split; assumption.
  - exact Hm.
Qed.

Lemma finally_trace {A} (P : Event -> Prop) (m : M A) (cleanup : M unit)
      env :
  Forall P (snd (m env)) ->
  Forall P (snd (cleanup env)) ->
  Forall P (snd (finally m cleanup env)).
Proof.
  unfold finally. destruct (m env) as [r t1].
  destruct (cleanup env) as [[u|e] t2]; simpl; intros H1 H2;
    apply Forall_app; split; assumption.
Qed.

Lemma page_texts_trace (P : Event -> Prop) pages env :
  P PageExtract -> Forall P (snd (mapM review_agent.page_text pages env)).
Proof.
  intros HP. induction pages as [|pg pages IH]; cbn [mapM].
  - constructor.
  - apply bind_trace.
    + unfold review_agent.page_text. apply bind_trace.
      * repeat constructor. exact HP.
      * intros. constructor.
    + intros. apply bind_trace; [exact IH | intros; constructor].
Qed.

Lemma read_pdf_bytes_trace (P : Event -> Prop) data env :
  (forall ev, ingestion ev = true -> P ev) ->
  Forall P (snd (review_agent._read_pdf_bytes data env)).
Proof.
  intros HP. unfold review_agent._read_pdf_bytes. apply bind_trace.
  - repeat constructor. apply HP. reflexivity.
  - intros. apply bind_trace.
    + apply page_texts_trace. apply HP. reflexivity.
    + intros. constructor.
Qed.

(** The Source Reader only makes ingestion calls. *)
Lemma read_paper_trace (P : Event -> Prop) source env :
  (forall ev, ingestion ev = true -> P ev) ->
  Forall P (snd (review_agent.read_paper source env)).
Proof.
  intros HP. unfold review_agent.read_paper.
  destruct (Py.str_eqb source (Py.lit "-")).
  - repeat constructor. apply HP. reflexivity.
  - apply bind_trace; [constructor |]. intros parsed _.
    destruct (Py.str_in _ _); [| destruct (Py.endswith _ _)].
    + unfold review_agent._read_from_url. apply bind_trace.
      * repeat constructor. apply HP. reflexivity.
      * intros resp _. apply bind_trace; [constructor |]. intros _ _.
        destruct (_ || _); [apply read_pdf_bytes_trace, HP | constructor].
    + unfold review_agent._read_pdf. apply bind_trace.
      * repeat constructor. apply HP. reflexivity.
      * intros data _.
        apply (read_pdf_bytes_trace P data env HP).
    + unfold review_agent._read_text_file. apply bind_trace.
      * repeat constructor. apply HP. reflexivity.
      * intros data _. destruct (Py.decode_strict data); constructor.
Qed.

Lemma read_source_trace (P : Event -> Prop) req env :
  (forall ev, ingestion ev = true -> P ev) ->
  Forall P (snd (server.read_source req env)).
Proof.
  intros HP. unfold server.read_source.
  destruct (server.file req) as [f|].
  - unfold server.read_upload.
    destruct (negb (Py.truthy (server.data f))); [constructor |].
    apply bind_trace; [| intros; constructor].
    destruct (_ || _); [apply read_pdf_bytes_trace, HP | constructor].
  - destruct (server.paper_url req) as [url|]; [| constructor].
    destruct (Py.truthy url); [| constructor].
    apply bind_trace; [apply read_paper_trace, HP | intros; constructor].
Qed.

(** ** The front ends *)

Lemma ingestion_sends_nothing domain tone language ev :
  ingestion ev = true -> sends_trimmed_text domain tone language ev.
Proof. destruct ev; simpl; intros H; try exact I; discriminate. Qed.

Lemma ingestion_not_model ev : ingestion ev = true -> model_call ev = false.
Proof. destruct ev; simpl; intros H; try reflexivity; discriminate. Qed.

Lemma call_model_trace domain tone language client model messages
      temperature env raw :
  review_agent.build_messages domain tone (Py.strip raw) language
  = Ok messages ->
  Py.truthy (Py.strip raw) = true ->
  Forall (sends_trimmed_text domain tone language)
         (snd (review_agent.call_model client model messages temperature
                                       env)).
Proof.
  intros Hm Ht. unfold review_agent.call_model. apply bind_trace.
  - apply Forall_cons; [| apply Forall_nil].
    exists (Py.strip raw). split; [exact Hm | split].
    + apply truthy_nonempty. exact Ht.
    + apply strip_idempotent.
  - intros resp _. destruct (openai.choices resp); apply Forall_nil.
Qed.

Lemma main_trace (env : Env) (args : review_agent.Namespace) :
  Forall (sends_trimmed_text (review_agent.domain args)
            (review_agent.tone args) (review_agent.language args))
         (snd (review_agent.main args env)).
Proof.
  unfold review_agent.main. apply bind_trace.
  - apply read_paper_trace. apply ingestion_sends_nothing.
  - intros raw _. destruct (Py.truthy (Py.strip raw)) eqn:E; cbn [negb].
    2: apply Forall_nil.
    apply bind_trace; [apply Forall_cons; [exact I | apply Forall_nil] |].
    intros client _. apply bind_trace; [apply Forall_nil |].
    intros messages Hm. apply bind_trace.
    + apply (call_model_trace _ _ _ _ _ _ _ _ raw); [exact Hm | exact E].
    + intros review _.
      destruct (review_agent.output args) as [out|];
        [destruct (Py.truthy out) |].
      * apply bind_trace; [apply Forall_cons; [exact I | apply Forall_nil] |].
        intros. apply bind_trace;
          [apply finally_trace;
           apply Forall_cons; (exact I || apply Forall_nil) |].
        intros. apply Forall_cons; [exact I | apply Forall_nil].
      * apply Forall_cons; [exact I | apply Forall_nil].
      * apply Forall_cons; [exact I | apply Forall_nil].
Qed.

Lemma review_trace (env : Env) (req : server.Form) :
  Forall (sends_trimmed_text (server.domain req) (server.tone req)
            (server.language req))
         (snd (server.review req env)).
Proof.
  unfold server.review.
  destruct (negb (Py.truthy_opt (server.api_key req))); [apply Forall_nil |].
  destruct (negb (server.is_some (server.file req)
                  || Py.truthy_opt (server.paper_url req)));
    [apply Forall_nil |].
  apply bind_trace.
  - apply read_source_trace. apply ingestion_sends_nothing.
  - intros read _. destruct (Py.truthy (Py.strip (fst read))) eqn:E;
      cbn [negb].
    2: apply Forall_nil.
    apply bind_trace; [apply Forall_cons; [exact I | apply Forall_nil] |].
    intros client _. apply bind_trace; [apply Forall_nil |].
    intros messages Hm. apply bind_trace.
    + apply (call_model_trace _ _ _ _ _ _ _ _ (fst read));
        [exact Hm | exact E].
    + intros. apply Forall_nil.
Qed.

Lemma main_empty (env : Env) (args : review_agent.Namespace) raw trace :
  review_agent.read_paper (review_agent.paper args) env = (Ok raw, trace) ->
  Py.strip raw = [] ->
  review_agent.main args env
  = (Raise (SystemExit
              (Py.lit "Paper text is empty; provide a text file or stdin input.")),
     trace).
Proof.
  intros Hr He. unfold review_agent.main, bind. rewrite Hr, He.
  cbn. rewrite app_nil_r. reflexivity.
Qed.

Lemma review_empty (env : Env) (req : server.Form) raw source trace :
  server.read_source req env = (Ok (raw, source), trace) ->
  Py.strip raw = [] ->
  exists detail,
    fst (server.review req env) = Raise (HTTPException 400 detail)
    /\ (snd (server.review req env) = [] \/ snd (server.review req env) = trace).
Proof.
  intros Hr He. unfold server.review.
  destruct (negb (Py.truthy_opt (server.api_key req)));
    [eexists; split; [reflexivity | left; reflexivity] |].
  destruct (negb (server.is_some (server.file req)
                  || Py.truthy_opt (server.paper_url req)));
    [eexists; split; [reflexivity | left; reflexivity] |].
  unfold bind. rewrite Hr. cbn [fst snd]. rewrite He. cbn.
  eexists; split; [reflexivity | right; apply app_nil_r].
Qed.

(** C6: in both front ends every call to the model carries messages built
    from a paper text that is not empty and equal to its own trimming; and
    when the text the reader returns trims to nothing, the command line
    ends with [SystemExit] carrying a message (exit status 1) and the
    endpoint answers 400, in both cases with no call to the model in the
    trace. *)
Theorem front_ends_reject_empty_paper (env : Env)
        (args : review_agent.Namespace) (req : server.Form) :
  (forall client model temperature messages,
      In (ChatCreate client model temperature messages)
         (snd (review_agent.main args env)) ->
      exists paper_text,
        review_agent.build_messages (review_agent.domain args)
          (review_agent.tone args) paper_text (review_agent.language args)
        = Ok messages
        /\ paper_text <> [] /\ Py.strip paper_text = paper_text)
  /\ (forall client model temperature messages,
         In (ChatCreate client model temperature messages)
            (snd (server.review req env)) ->
         exists paper_text,
           review_agent.build_messages (server.domain req)
             (server.tone req) paper_text (server.language req)
           = Ok messages
           /\ paper_text <> [] /\ Py.strip paper_text = paper_text)
  /\ (forall raw trace,
         review_agent.read_paper (review_agent.paper args) env
         = (Ok raw, trace) ->
         Py.strip raw = [] ->
         exists msg,
           review_agent.main args env = (Raise (SystemExit msg), trace)
           /\ msg <> []
           /\ review_agent.exit_status (fst (review_agent.main args env))
              <> 0%Z
           /\ review_agent.exit_message (fst (review_agent.main args env))
              = Some msg
           /\ forall ev, In ev (snd (review_agent.main args env)) ->
                         model_call ev = false)
  /\ (forall raw source trace,
         server.read_source req env = (Ok (raw, source), trace) ->
         Py.strip raw = [] ->
         server.http_status (fst (server.review req env)) = 400%Z
         /\ forall ev, In ev (snd (server.review req env)) ->
                       model_call ev = false).
Proof.
  split; [| split; [| split]].
  - intros client model temperature messages H.
    pose proof (main_trace env args) as T.
    rewrite Forall_forall in T. exact (T _ H).
  - intros client model temperature messages H.
    pose proof (review_trace env req) as T.
    rewrite Forall_forall in T. exact (T _ H).
  - intros raw trace Hr He. eexists.
    rewrite (main_empty env args raw trace Hr He). cbn [fst snd].
    split; [reflexivity | split; [| split; [| split]]].
    + vm_compute. discriminate.
    + simpl. discriminate.
    + reflexivity.
    + intros ev Hev. apply ingestion_not_model.
      pose proof (read_paper_trace (fun e => ingestion e = true)
                    (review_agent.paper args) env (fun e H => H)) as T.
      rewrite Hr in T. rewrite Forall_forall in T. apply T. exact Hev.
  - intros raw source trace Hr He.
    destruct (review_empty env req raw source trace Hr He) as [d [Hf Ht]].
    rewrite Hf. split; [reflexivity |].
    intros ev Hev. destruct Ht as [Ht | Ht]; rewrite Ht in Hev.
    + contradiction.
    + apply ingestion_not_model.
      pose proof (read_source_trace (fun e => ingestion e = true)
                    req env (fun e H => H)) as T.
      rewrite Hr in T. rewrite Forall_forall in T. apply T. exact Hev.
Qed.

Lemma front_ends_reject_empty_paper_witness :
  (exists msg,
      review_agent.main (Sample.args Sample.url_not_modified) Sample.env
      = (Raise (SystemExit msg), [HttpGet Sample.url_not_modified 30]))
  /\ server.http_status
       (fst (server.review
               (Sample.form (Some (Py.lit "sk-test"))
                            (Some Sample.url_not_modified) None)
               Sample.env)) = 400%Z.
Proof.
  destruct (front_ends_reject_empty_paper Sample.env
              (Sample.args Sample.url_not_modified)
              (Sample.form (Some (Py.lit "sk-test"))
                           (Some Sample.url_not_modified) None))
    as [_ [_ [Hcli Hhttp]]].
  split.
  - destruct (Hcli [] [HttpGet Sample.url_not_modified 30]
                   eq_refl eq_refl) as [msg [Hm _]].
    exists msg. exact Hm.
  - exact (proj1 (Hhttp [] Sample.url_not_modified
                        [HttpGet Sample.url_not_modified 30]
                        eq_refl eq_refl)).
Defined.

(** ** UTF-8 *)

Lemma chars_map_char (s : str) : Py.chars (map Py.Char s) = s.
Proof. induction s; simpl; congruence. Qed.

Lemma has_bad_map_char (s : str) : Py.has_bad (map Py.Char s) = false.
Proof. induction s; simpl; auto. Qed.

Lemma utf8_scan_cons (b : byte) (rest : bytes) :
  Py.utf8_scan (b :: rest)
  = let n := Byte.to_N b in
    if (n <? 128)%N then Py.Char n :: Py.utf8_scan rest
    else if (n <? 194)%N then Py.Bad [b] :: Py.utf8_scan rest
    else if (n <? 224)%N then
      match rest with
      | [] => [Py.Bad [b]]
      | c1 :: r1 =>
        if Py.is_cont c1 then Py.Char (Py.cp2 b c1) :: Py.utf8_scan r1
        else Py.Bad [b] :: Py.utf8_scan rest
      end
    else if (n <? 240)%N then
      match rest with
      | [] => [Py.Bad [b]]
      | c1 :: r1 =>
        if Py.second_ok b c1 then
          match r1 with
          | [] => [Py.Bad [b; c1]]
          | c2 :: r2 =>
            if Py.is_cont c2 then Py.Char (Py.cp3 b c1 c2) :: Py.utf8_scan r2
            else Py.Bad [b; c1] :: Py.utf8_scan r1
          end
        else Py.Bad [b] :: Py.utf8_scan rest
      end
    else if (n <? 245)%N then
      match rest with
      | [] => [Py.Bad [b]]
      | c1 :: r1 =>
        if Py.second_ok b c1 then
          match r1 with
          | [] => [Py.Bad [b; c1]]
          | c2 :: r2 =>
            if Py.is_cont c2 then
              match r2 with
              | [] => [Py.Bad [b; c1; c2]]
              | c3 :: r3 =>
                if Py.is_cont c3
                then Py.Char (Py.cp4 b c1 c2 c3) :: Py.utf8_scan r3
                else Py.Bad [b; c1; c2] :: Py.utf8_scan r2
              end
            else Py.Bad [b; c1] :: Py.utf8_scan r1
          end
        else Py.Bad [b] :: Py.utf8_scan rest
      end
    else Py.Bad [b] :: Py.utf8_scan rest.
Proof. reflexivity. Qed.

Ltac subseq_tac :=
  repeat first [assumption | apply subseq_keep | apply subseq_drop
               | apply subseq_nil].

(** Scanning finds, in any input, a subsequence that is valid UTF-8 and
    decodes to the characters of the input. *)
Lemma utf8_scan_kept (n : nat) :
  forall data, length data <= n ->
  exists kept,
    subseq kept data
    /\ Py.utf8_scan kept = map Py.Char (Py.chars (Py.utf8_scan data)).
Proof.
  induction n as [|n IH]; intros data Hlen.
  - destruct data; [| simpl in Hlen; lia].
    exists []. split; [subseq_tac | reflexivity].
  - destruct data as [|b rest].
    { exists []. split; [subseq_tac | reflexivity]. }
    simpl in Hlen.
    assert (Hrest : exists kept, subseq kept rest
              /\ Py.utf8_scan kept
                 = map Py.Char (Py.chars (Py.utf8_scan rest)))
      by (apply IH; lia).
    rewrite (utf8_scan_cons b rest). cbv zeta.
    destruct (Byte.to_N b <? 128)%N eqn:E1.
    { destruct Hrest as [k [Hk Hs]]. exists (b :: k). split.
      - subseq_tac.
      - rewrite utf8_scan_cons. cbv zeta. rewrite E1. simpl. congruence. }
    destruct (Byte.to_N b <? 194)%N eqn:E2.
    { destruct Hrest as [k [Hk Hs]]. exists k. split.
      - subseq_tac.
      - exact Hs. }
    destruct rest as [|c1 r1].
    { exists []. split; [subseq_tac |].
      repeat match goal with |- context [if ?c then _ else _] =>
                               destruct c end; reflexivity. }
    simpl in Hlen.
    assert (Hr1 : exists kept, subseq kept r1
              /\ Py.utf8_scan kept
                 = map Py.Char (Py.chars (Py.utf8_scan r1)))
      by (apply IH; lia).
    destruct (Byte.to_N b <? 224)%N eqn:E3.
    { destruct (Py.is_cont c1) eqn:C1.
      - destruct Hr1 as [k [Hk Hs]]. exists (b :: c1 :: k). split.
        + subseq_tac.
        + rewrite utf8_scan_cons. cbv zeta. rewrite E1, E2, E3, C1.
          simpl. congruence.
      - destruct Hrest as [k [Hk Hs]]. exists k. split.
        + subseq_tac.
        + exact Hs. }
    destruct (Py.second_ok b c1) eqn:S1.
    2:{ destruct Hrest as [k [Hk Hs]]. exists k. split.
        - subseq_tac.
        - destruct (Byte.to_N b <? 240)%N; [exact Hs |].
          destruct (Byte.to_N b <? 245)%N; exact Hs. }
    destruct r1 as [|c2 r2].
    { destruct Hrest as [k [Hk Hs]].
      destruct (Byte.to_N b <? 240)%N;
        [| destruct (Byte.to_N b <? 245)%N].
      - exists []. split; [subseq_tac | reflexivity].
      - exists []. split; [subseq_tac | reflexivity].
      - exists k. split; [subseq_tac | exact Hs]. }
    simpl in Hlen.
    assert (Hr2 : exists kept, subseq kept r2
              /\ Py.utf8_scan kept
                 = map Py.Char (Py.chars (Py.utf8_scan r2)))
      by (apply IH; lia).
    destruct (Py.is_cont c2) eqn:C2.
    2:{ destruct Hr1 as [k [Hk Hs]]. destruct Hrest as [k' [Hk' Hs']].
        destruct (Byte.to_N b <? 240)%N;
          [| destruct (Byte.to_N b <? 245)%N].
        - exists k. split; [subseq_tac | exact Hs].
        - exists k. split; [subseq_tac | exact Hs].
        - exists k'. split; [subseq_tac | exact Hs']. }
    destruct (Byte.to_N b <? 240)%N eqn:E4.
    { destruct Hr2 as [k [Hk Hs]]. exists (b :: c1 :: c2 :: k). split.
      - subseq_tac.
      - rewrite utf8_scan_cons. cbv zeta. rewrite E1, E2, E3, E4, S1, C2.
        simpl. congruence. }
    destruct (Byte.to_N b <? 245)%N eqn:E5.
    2:{ destruct Hrest as [k [Hk Hs]]. exists k. split.
        - subseq_tac.
        - exact Hs. }
    destruct r2 as [|c3 r3].
    { exists []. split; [subseq_tac | reflexivity]. }
    simpl in Hlen.
    destruct (Py.is_cont c3) eqn:C3.
    + destruct (IH r3 ltac:(lia)) as [k [Hk Hs]].
      exists (b :: c1 :: c2 :: c3 :: k). split.
      * subseq_tac.
      * rewrite utf8_scan_cons. cbv zeta.
        rewrite E1, E2, E3, E4, E5, S1, C2, C3. simpl. congruence.
    + destruct Hr2 as [k [Hk Hs]]. exists k. split.
      * subseq_tac.
      * exact Hs.
Qed.

(** What [errors="ignore"] keeps: the result is the strict decoding of the
    input with some bytes removed. *)
Lemma decode_ignore_drops (data : bytes) :
  exists kept,
    subseq kept data /\ Py.decode_strict kept = Some (Py.decode_ignore data).
Proof.
  destruct (utf8_scan_kept (length data) data (le_n _)) as [k [Hk Hs]].
  exists k. split; [exact Hk |].
  unfold Py.decode_strict, Py.decode_ignore. rewrite Hs.
  rewrite has_bad_map_char, chars_map_char. reflexivity.
Qed.

Lemma decode_ignore_valid (data : bytes) (text : str) :
  Py.decode_strict data = Some text -> Py.decode_ignore data = text.
Proof.
  unfold Py.decode_strict, Py.decode_ignore.
  destruct (Py.has_bad (Py.utf8_scan data)); congruence.
Qed.

(** ** The endpoint *)

(** C7: [POST /review] answers 400 when [api_key] is missing (or empty),
    whatever the other fields; when there is neither a file nor a paper
    URL; and when the uploaded file has no bytes.  In each case nothing has
    been read or sent: the trace is empty. *)
Theorem review_rejects_bad_request (env : Env) (req : server.Form) :
  Py.truthy_opt (server.api_key req) = false
  \/ (server.file req = None /\ Py.truthy_opt (server.paper_url req) = false)
  \/ (exists f, server.file req = Some f /\ server.data f = []) ->
  exists detail,
    server.review req env = (Raise (HTTPException 400 detail), [])
    /\ server.http_status (fst (server.review req env)) = 400%Z.
Proof.
  intros H. unfold server.review.
  destruct (Py.truthy_opt (server.api_key req)) eqn:K; cbn [negb].
  2:{ eexists. split; reflexivity. }
  destruct H as [H | [[Hf Hu] | [f [Hf Hd]]]].
  - discriminate.
  - rewrite Hf, Hu. cbn. eexists. split; reflexivity.
  - rewrite Hf. cbn [server.is_some orb negb].
    unfold bind, server.read_source. rewrite Hf.
    unfold server.read_upload. rewrite Hd. cbn.
    eexists. split; reflexivity.
Qed.

Lemma review_rejects_bad_request_witness :
  server.http_status
    (fst (server.review
            (Sample.form None (Some Sample.url_upper)
               (Some (Sample.upload (Some (Py.lit "draft.pdf")) None
                                    Sample.pdf_bytes)))
            Sample.env)) = 400%Z
  /\ server.http_status
       (fst (server.review (Sample.form (Some (Py.lit "sk-test")) None None)
                           Sample.env)) = 400%Z
  /\ server.http_status
       (fst (server.review
               (Sample.form (Some (Py.lit "sk-test")) (Some Sample.url_upper)
                  (Some (Sample.upload (Some (Py.lit "draft.pdf")) None [])))
               Sample.env)) = 400%Z.
Proof.
  split; [| split].
  - destruct (review_rejects_bad_request Sample.env
                (Sample.form None (Some Sample.url_upper)
                   (Some (Sample.upload (Some (Py.lit "draft.pdf")) None
                                        Sample.pdf_bytes)))
                (or_introl eq_refl)) as [d [_ H]].
    exact H.
  - destruct (review_rejects_bad_request Sample.env
                (Sample.form (Some (Py.lit "sk-test")) None None)
                (or_intror (or_introl (conj eq_refl eq_refl))))
      as [d [_ H]].
    exact H.
  - destruct (review_rejects_bad_request Sample.env
                (Sample.form (Some (Py.lit "sk-test"))
                   (Some Sample.url_upper)
                   (Some (Sample.upload (Some (Py.lit "draft.pdf")) None [])))
                (or_intror (or_intror
                   (ex_intro _ (Sample.upload (Some (Py.lit "draft.pdf"))
                                              None [])
                             (conj eq_refl eq_refl)))))
      as [d [_ H]].
    exact H.
Defined.

(** ** The Model Caller *)

(** C8, as the code has it: when the API response has at least one choice,
    [call_model] returns the content of the first one, and the empty
    string when that content is absent. *)
Theorem call_model_first_choice (env : Env) (client : openai.Client)
        (model : str) (messages : list Message) (temperature : Q)
        (response : openai.ChatCompletion) (first : openai.Choice)
        (rest : list openai.Choice) :
  chat_completions_create env client model temperature messages
  = Ok response ->
  openai.choices response = first :: rest ->
  review_agent.call_model client model messages temperature env
  = (Ok match openai.content (openai.message first) with
        | Some text => text
        | None => []
        end,
     [ChatCreate client model temperature messages]).
Proof.
  intros Hr Hc. unfold review_agent.call_model, bind, call.
  rewrite Hr, Hc. cbn.
  destruct (openai.content (openai.message first)) as [[|c t]|]; reflexivity.
Qed.

Lemma call_model_first_choice_witness :
  review_agent.call_model Sample.client Sample.test_model [] (1 # 5)
                          Sample.env
  = (Ok Sample.reply,
     [ChatCreate Sample.client Sample.test_model (1 # 5) []]).
Proof.
  exact (call_model_first_choice Sample.env Sample.client
           Sample.test_model [] (1 # 5)
           (Sample.one_choice (Some Sample.reply))
           {| openai.message := {| openai.content := Some Sample.reply |} |}
           [] eq_refl eq_refl).
Defined.

(** C8 as stated fails on a response without choices: [call_model] raises
    [IndexError] and returns nothing. *)
Lemma call_model_counterexample :
  chat_completions_create Sample.env_no_choice Sample.client
    (Py.lit "test-model") (1 # 5) []
  = Ok {| openai.choices := [] |}
  /\ review_agent.call_model Sample.client (Py.lit "test-model") [] (1 # 5)
                             Sample.env_no_choice
     = (Raise IndexError,
        [ChatCreate Sample.client (Py.lit "test-model") (1 # 5) []]).
Proof. split; reflexivity. Qed.

(** ** Uploads *)

(** The label [filename or "uploaded-file"] of an upload. *)
Lemma read_upload_label (f : server.UploadFile) env text source trace :
  server.read_upload f env = (Ok (text, source), trace) ->
  source = match server.filename f with
           | Some (c :: name) => c :: name
           | _ => Py.lit "uploaded-file"
           end.
Proof.
  unfold server.read_upload.
  destruct (negb (Py.truthy (server.data f))); [discriminate |].
  unfold bind.
  assert (L : Py.or_else (Some (Py.or_else (server.filename f) []))
                         (Py.lit "uploaded-file")
              = match server.filename f with
                | Some (c :: name) => c :: name
                | _ => Py.lit "uploaded-file"
                end)
    by (destruct (server.filename f) as [[|c name]|]; reflexivity).
  rewrite L.
  destruct (Py.endswith _ _ || Py.contains _ _).
  - destruct (review_agent.read_pdf_bytes _ env) as [[t|e] tr];
      [| discriminate].
    unfold ret. intros [= _ <- _]. reflexivity.
  - unfold ret. intros [= _ <- _]. reflexivity.
Qed.

Lemma review_with_file (env : Env) (req : server.Form)
      (f : server.UploadFile) :
  server.file req = Some f ->
  server.review req env
  = if negb (Py.truthy_opt (server.api_key req)) then
      (Raise (HTTPException 400 (Py.lit "缺少 api_key")), [])
    else
      bind (server.read_upload f)
           (fun read =>
              let paper_text := Py.strip (fst read) in
              let paper_source := snd read in
              if negb (Py.truthy paper_text) then
                raise (HTTPException 400
                         (Py.lit "论文内容为空，检查文件或 URL 是否有效"))
              else
                client <- call (ClientNew (server.api_key req)
                                          (server.base_url req))
                               (fun env => OpenAI env (server.api_key req)
                                                  (server.base_url req)) ;;
                messages <- lift (review_agent.build_messages
                                    (server.domain req) (server.tone req)
                                    paper_text (server.language req)) ;;
                review_text <- review_agent.call_model
                                 client (server.model req) messages
                                 (server.temperature req) ;;
                ret {| server.review_text := review_text;
                       server.meta :=
                         {| server.meta_domain := server.domain req;
                            server.meta_language := server.language req;
                            server.meta_model := server.model req;
                            server.meta_base_url := server.base_url req;
                            server.paper_source := paper_source;
                            server.text_chars := length paper_text |} |})
           env.
Proof.
  intros Hf. unfold server.review, server.read_source. rewrite Hf.
  destruct (negb (Py.truthy_opt (server.api_key req))); reflexivity.
Qed.

Example decode_ignore_latin1 :
  Py.decode_ignore Sample.latin1_bytes = Py.lit "caf"
  /\ Py.decode_strict Sample.latin1_bytes = None.
Proof. split; reflexivity. Qed.

(** ** Runs of the command line *)

Lemma call_model_run (env : Env) client model messages temperature :
  review_agent.call_model client model messages temperature env
  = (match chat_completions_create env client model temperature messages with
     | Raise e => Raise e
     | Ok response =>
       match openai.choices response with
       | [] => Raise IndexError
       | first :: _ =>
         Ok (Py.or_else (openai.content (openai.message first)) [])
       end
     end,
     [ChatCreate client model temperature messages]).
Proof.
  unfold review_agent.call_model, bind, call.
  destruct (chat_completions_create env client model temperature messages)
    as [response|e]; [| reflexivity].
  destruct (openai.choices response); reflexivity.
Qed.

(** Every path through [main], with its trace. *)
Lemma main_run (env : Env) (args : review_agent.Namespace) :
  review_agent.main args env
  = match review_agent.read_paper (review_agent.paper args) env with
    | (Raise e, tr) => (Raise e, tr)
    | (Ok raw, tr) =>
      if negb (Py.truthy (Py.strip raw)) then
        (Raise (SystemExit
                  (Py.lit "Paper text is empty; provide a text file or stdin input.")),
         tr)
      else
        let new := ClientNew (review_agent.api_key args)
                             (review_agent.base_url args) in
        match OpenAI env (review_agent.api_key args)
                     (review_agent.base_url args) with
        | Raise e => (Raise e, tr ++ [new])
        | Ok client =>
          match review_agent.build_messages
                  (review_agent.domain args) (review_agent.tone args)
                  (Py.strip raw) (review_agent.language args) with
          | Raise e => (Raise e, tr ++ [new])
          | Ok messages =>
            match review_agent.call_model client (review_agent.model args)
                    messages (review_agent.temperature args) env with
            | (Raise e, tc) => (Raise e, tr ++ new :: tc)
            | (Ok review, tc) =>
              match review_agent.output args with
              | Some (c :: out) =>
                let path := c :: out in
                let saved := Py.lit "Saved review to " ++ path in
                match open_write env path with
                | Raise e => (Raise e, tr ++ new :: tc ++ [FileCreate path])
                | Ok _ =>
                  match file_write env path review, file_close env path with
                  | _, Raise e | Raise e, Ok _ =>
                    (Raise e,
                     tr ++ new :: tc
                     ++ [FileCreate path; FileWrite path review;
                         FileClose path])
                  | Ok _, Ok _ =>
                    (print env saved,
                     tr ++ new :: tc
                     ++ [FileCreate path; FileWrite path review;
                         FileClose path; Print saved])
                  end
                end
              | _ => (print env review, tr ++ new :: tc ++ [Print review])
              end
            end
          end
        end
    end.
Proof.
  unfold review_agent.main. unfold bind at 1.
  destruct (review_agent.read_paper (review_agent.paper args) env)
    as [[raw|e] tr]; [| reflexivity].
  destruct (negb (Py.truthy (Py.strip raw))).
  { unfold raise. rewrite app_nil_r. reflexivity. }
  cbv zeta. unfold bind, finally, call, lift.
  destruct (OpenAI env _ _) as [client|e]; [| reflexivity].
  destruct (review_agent.build_messages _ _ _ _) as [messages|e];
    [| reflexivity].
  destruct (review_agent.call_model client _ messages _ env)
    as [[review|e] tc].
  2:{ reflexivity. }
  destruct (review_agent.output args) as [[|c out]|].
  - reflexivity.
  - cbn [Py.truthy]. cbv zeta.
    destruct (open_write env (c :: out)); [| reflexivity].
    destruct (file_write env (c :: out) review);
      destruct (file_close env (c :: out)); reflexivity.
  - reflexivity.
Qed.

(** Every path through [review], with its trace. *)
Lemma review_run (env : Env) (req : server.Form) :
  server.review req env
  = if negb (Py.truthy_opt (server.api_key req)) then
      (Raise (HTTPException 400 (Py.lit "缺少 api_key")), [])
    else if negb (server.is_some (server.file req)
                  || Py.truthy_opt (server.paper_url req)) then
      (Raise (HTTPException 400 (Py.lit "需要提供文件或论文 URL")), [])
    else
      match server.read_source req env with
      | (Raise e, tr) => (Raise e, tr)
      | (Ok (raw, source), tr) =>
        if negb (Py.truthy (Py.strip raw)) then
          (Raise (HTTPException 400
                    (Py.lit "论文内容为空，检查文件或 URL 是否有效")), tr)
        else
          let new := ClientNew (server.api_key req) (server.base_url req) in
          match OpenAI env (server.api_key req) (server.base_url req) with
          | Raise e => (Raise e, tr ++ [new])
          | Ok client =>
            match review_agent.build_messages
                    (server.domain req) (server.tone req) (Py.strip raw)
                    (server.language req) with
            | Raise e => (Raise e, tr ++ [new])
            | Ok messages =>
              match review_agent.call_model client (server.model req)
                      messages (server.temperature req) env with
              | (Raise e, tc) => (Raise e, tr ++ new :: tc)
              | (Ok review_text, tc) =>
                (Ok {| server.review_text := review_text;
                       server.meta :=
                         {| server.meta_domain := server.domain req;
                            server.meta_language := server.language req;
                            server.meta_model := server.model req;
                            server.meta_base_url := server.base_url req;
                            server.paper_source := source;
                            server.text_chars := length (Py.strip raw) |} |},
                 tr ++ new :: tc)
              end
            end
          end
      end.
Proof.
  unfold server.review.
  destruct (negb (Py.truthy_opt (server.api_key req))); [reflexivity |].
  destruct (negb (server.is_some (server.file req)
                  || Py.truthy_opt (server.paper_url req))); [reflexivity |].
  unfold bind at 1.
  destruct (server.read_source req env) as [[[raw source]|e] tr];
    [| reflexivity].
  cbn [fst snd].
  destruct (negb (Py.truthy (Py.strip raw))).
  { unfold raise. rewrite app_nil_r. reflexivity. }
  cbv zeta. unfold bind, call, lift, ret.
  destruct (OpenAI env _ _) as [client|e]; [| reflexivity].
  destruct (review_agent.build_messages _ _ _ _) as [messages|e];
    [| reflexivity].
  destruct (review_agent.call_model client _ messages _ env)
    as [[review_text|e] tc].
  - cbn [app]. rewrite app_nil_r. reflexivity.
  - reflexivity.
Qed.

Lemma filter_none {A} (f : A -> bool) (l : list A) :
  Forall (fun x => f x = false) l -> filter f l = [].
Proof.
  induction 1 as [|x l Hx _ IH]; simpl; [reflexivity |].
  rewrite Hx. exact IH.
Qed.

(** What [build_messages] returns: the system message interpolates the
    domain and the tone, the user message the domain and the paper. *)
Lemma build_messages_shape (domain tone paper_text language : str) :
  exists system_msg user_msg,
    review_agent.build_messages domain tone paper_text language
    = Ok [ {| role := Py.lit "system"; content := system_msg |};
           {| role := Py.lit "user"; content := user_msg |} ]
    /\ substring domain system_msg /\ substring tone system_msg
    /\ substring domain user_msg /\ substring paper_text user_msg.
Proof.
  assert (F : forall template,
             option_map Format.fields (Format.parse Format.InText template)
             = Some [Py.lit "domain"; Py.lit "paper"] ->
             exists user_msg,
               Format.format template
                 [(Py.lit "domain", domain); (Py.lit "paper", paper_text)]
               = Ok user_msg
               /\ substring domain user_msg
               /\ substring paper_text user_msg).
  { intros template Hf.
    destruct (format_template template domain paper_text Hf)
      as [u [Hu Hp]].
    exists u. split; [exact Hu | split; [| exact Hp]].
    unfold Format.format in Hu.
    destruct (Format.parse Format.InText template) as [segs|];
      [| discriminate].
    simpl in Hf. injection Hf as Hf.
    apply (render_substring segs _ u (Py.lit "domain") domain Hu).
    - rewrite Hf. left. reflexivity.
    - reflexivity. }
  assert (S : forall a b c d e : str,
             substring domain (a ++ domain ++ b ++ c ++ tone ++ d ++ e)
             /\ substring tone (a ++ domain ++ b ++ c ++ tone ++ d ++ e)).
  { intros a b c d e. split.
    - exists a, (b ++ c ++ tone ++ d ++ e). reflexivity.
    - exists (a ++ domain ++ b ++ c), (d ++ e).
      rewrite <- !app_assoc. reflexivity. }
  unfold review_agent.build_messages. cbv zeta.
  destruct (Py.startswith (Py.lower language) (Py.lit "zh")).
  - destruct (F _ template_zh_fields) as [u [-> [Hd Hp]]].
    eexists _, u. split; [reflexivity |].
    split; [apply S | split; [apply S | split; assumption]].
  - destruct (F _ template_en_fields) as [u [-> [Hd Hp]]].
    eexists _, u. split; [reflexivity |].
    split; [apply S | split; [apply S | split; assumption]].
Qed.

(** X1: when the reader returns a text that is not blank and the client
    is built, [main] sends one request to the model right after building
    the client; the request has the system message first, which holds the
    domain and the tone, and the user message second, which holds the
    domain and the trimmed paper text. *)
Theorem main_sends_trimmed_paper (env : Env) (args : review_agent.Namespace)
        (raw : str) (tr : list Event) (client : openai.Client) :
  review_agent.read_paper (review_agent.paper args) env = (Ok raw, tr) ->
  Py.strip raw <> [] ->
  OpenAI env (review_agent.api_key args) (review_agent.base_url args)
  = Ok client ->
  exists system_msg user_msg rest,
    snd (review_agent.main args env)
    = tr ++ ClientNew (review_agent.api_key args)
                      (review_agent.base_url args)
         :: ChatCreate client (review_agent.model args)
                       (review_agent.temperature args)
                       [ {| role := Py.lit "system"; content := system_msg |};
                         {| role := Py.lit "user"; content := user_msg |} ]
         :: rest
    /\ substring (review_agent.domain args) system_msg
    /\ substring (review_agent.tone args) system_msg
    /\ substring (review_agent.domain args) user_msg
    /\ substring (Py.strip raw) user_msg.
Proof.
  intros Hr Hne Hc. rewrite main_run, Hr, Hc.
  apply truthy_nonempty in Hne. rewrite Hne. cbn [negb]. cbv zeta.
  destruct (build_messages_shape (review_agent.domain args)
              (review_agent.tone args) (Py.strip raw)
              (review_agent.language args))
    as [s [u [-> [H1 [H2 [H3 H4]]]]]].
  exists s, u. rewrite call_model_run.
  destruct (match chat_completions_create env client _ _ _ with
            | Ok _ => _ | Raise e => _ end) as [review|e].
  - destruct (review_agent.output args) as [[|c out]|];
      [| cbv zeta; destruct (open_write env (c :: out));
         [destruct (file_write env (c :: out) review);
          destruct (file_close env (c :: out)) |] |];
      eexists; (split; [reflexivity | auto]).
  - eexists. split; [reflexivity | auto].
Qed.

Lemma main_sends_trimmed_paper_witness :
  exists system_msg user_msg rest,
    snd (review_agent.main (Sample2.args_out Sample2.sample_txt None)
                           Sample.env)
    = [FileOpen Sample2.sample_txt]
      ++ ClientNew (Some Sample.test_model) None
         :: ChatCreate {| openai.api_key := Some Sample.test_model;
                          openai.base_url := None |}
                       Sample.test_model (1 # 5)
                       [ {| role := Py.lit "system"; content := system_msg |};
                         {| role := Py.lit "user"; content := user_msg |} ]
         :: rest
    /\ substring (Py.strip Sample2.paper_body) user_msg.
Proof.
  destruct (main_sends_trimmed_paper Sample.env
              (Sample2.args_out Sample2.sample_txt None)
              Sample2.paper_body [FileOpen Sample2.sample_txt]
              {| openai.api_key := Some Sample.test_model;
                 openai.base_url := None |})
    as [s [u [rest [Ht [_ [_ [_ Hp]]]]]]].
  - reflexivity.
  - discriminate.
  - reflexivity.
  - exists s, u, rest. split; [exact Ht | exact Hp].
Defined.

Lemma ingestion_trace_filters (tr : list Event) :
  Forall (fun ev => ingestion ev = true) tr ->
  filter is_print tr = [] /\ filter model_call tr = []
  /\ (forall path data, ~ In (FileWrite path data) tr).
Proof.
  intros H. split; [| split].
  - apply filter_none. revert H. apply Forall_impl.
    intros [] Hev; try reflexivity; discriminate.
  - apply filter_none. revert H. apply Forall_impl.
    intros [] Hev; try reflexivity; discriminate.
  - intros path data Hin. rewrite Forall_forall in H.
    specialize (H _ Hin). discriminate.
Qed.

Lemma read_paper_ingestion (env : Env) (source : str) :
  Forall (fun ev => ingestion ev = true)
         (snd (review_agent.read_paper source env)).
Proof. apply read_paper_trace. auto. Qed.

Lemma read_source_ingestion (env : Env) (req : server.Form) :
  Forall (fun ev => ingestion ev = true) (snd (server.read_source req env)).
Proof. apply read_source_trace. auto. Qed.

Lemma call_model_trace_eq (env : Env) client model messages temperature r tc :
  review_agent.call_model client model messages temperature env = (r, tc) ->
  tc = [ChatCreate client model temperature messages].
Proof. rewrite call_model_run. intros [= _ <-]. reflexivity. Qed.

(** X4: neither front end retries or fans out: one run of [main] and one
    run of [review] contain at most one request to the model. *)
Theorem front_ends_call_model_once (env : Env)
        (args : review_agent.Namespace) (req : server.Form) :
  length (filter model_call (snd (review_agent.main args env))) <= 1
  /\ length (filter model_call (snd (server.review req env))) <= 1.
Proof.
  split.
  - pose proof (read_paper_ingestion env (review_agent.paper args)) as Htr.
    rewrite main_run.
    destruct (review_agent.read_paper (review_agent.paper args) env)
      as [[raw|e0] tr]; cbn [snd] in Htr;
      destruct (ingestion_trace_filters tr Htr) as [_ [Hm _]].
    2:{ cbn [snd]. rewrite Hm. simpl. lia. }
    destruct (negb (Py.truthy (Py.strip raw))).
    { cbn [snd]. rewrite Hm. simpl. lia. }
    cbv zeta.
    destruct (OpenAI env _ _) as [client|e0].
    2:{ cbn [snd]. rewrite filter_app, Hm. simpl. lia. }
    destruct (review_agent.build_messages _ _ _ _) as [messages|e0].
    2:{ cbn [snd]. rewrite filter_app, Hm. simpl. lia. }
    destruct (review_agent.call_model client _ messages _ env)
      as [[review|e0] tc] eqn:Hc;
      apply call_model_trace_eq in Hc; subst tc.
    2:{ cbn [snd]. rewrite filter_app, Hm. simpl. lia. }
    destruct (review_agent.output args) as [[|c out]|];
      [| cbv zeta; destruct (open_write env (c :: out));
         [destruct (file_write env (c :: out) review);
          destruct (file_close env (c :: out)) |] |];
      cbn [snd]; rewrite filter_app, Hm; simpl; lia.
  - pose proof (read_source_ingestion env req) as Htr.
    rewrite review_run.
    destruct (negb (Py.truthy_opt (server.api_key req))); [simpl; lia |].
    destruct (negb (server.is_some (server.file req)
                    || Py.truthy_opt (server.paper_url req)));
      [simpl; lia |].
    destruct (server.read_source req env) as [[[raw source]|e0] tr];
      cbn [snd] in Htr;
      destruct (ingestion_trace_filters tr Htr) as [_ [Hm _]].
    2:{ cbn [snd]. rewrite Hm. simpl. lia. }
    destruct (negb (Py.truthy (Py.strip raw))).
    { cbn [snd]. rewrite Hm. simpl. lia. }
    cbv zeta.
    destruct (OpenAI env _ _) as [client|e0].
    2:{ cbn [snd]. rewrite filter_app, Hm. simpl. lia. }
    destruct (review_agent.build_messages _ _ _ _) as [messages|e0].
    2:{ cbn [snd]. rewrite filter_app, Hm. simpl. lia. }
    destruct (review_agent.call_model client _ messages _ env)
      as [[review|e0] tc] eqn:Hc;
      apply call_model_trace_eq in Hc; subst tc;
      cbn [snd]; rewrite filter_app, Hm; simpl; lia.
Qed.

(** X5: a 200 answer of [review] always rests on one completed model
    call.  The paper text was resolved, is not blank once trimmed, the
    client was built from the request's key and base URL, and the answer
    carries the text the model returned; the metadata echo the request,
    name the source, and count the characters of the trimmed text. *)
Theorem review_ok_response (env : Env) (req : server.Form)
        (response : server.ReviewResponse) :
  fst (server.review req env) = Ok response ->
  exists raw source tr client messages tc,
    server.read_source req env = (Ok (raw, source), tr)
    /\ Py.strip raw <> []
    /\ OpenAI env (server.api_key req) (server.base_url req) = Ok client
    /\ review_agent.build_messages (server.domain req) (server.tone req)
         (Py.strip raw) (server.language req) = Ok messages
    /\ review_agent.call_model client (server.model req) messages
         (server.temperature req) env
       = (Ok (server.review_text response), tc)
    /\ snd (server.review req env)
       = tr ++ ClientNew (server.api_key req) (server.base_url req) :: tc
    /\ server.meta response
       = {| server.meta_domain := server.domain req;
            server.meta_language := server.language req;
            server.meta_model := server.model req;
            server.meta_base_url := server.base_url req;
            server.paper_source := source;
            server.text_chars := length (Py.strip raw) |}.
Proof.
  rewrite review_run.
  destruct (negb (Py.truthy_opt (server.api_key req))); [discriminate |].
  destruct (negb (server.is_some (server.file req)
                  || Py.truthy_opt (server.paper_url req)));
    [discriminate |].
  destruct (server.read_source req env) as [[[raw source]|e0] tr];
    [| discriminate].
  destruct (Py.truthy (Py.strip raw)) eqn:Ht; cbn [negb]; [| discriminate].
  cbv zeta.
  destruct (OpenAI env _ _) as [client|e0] eqn:Ho; [| discriminate].
  destruct (review_agent.build_messages _ _ _ _) as [messages|e0] eqn:Hb;
    [| discriminate].
  destruct (review_agent.call_model client _ messages _ env)
    as [[review|e0] tc] eqn:Hc; [| discriminate].
  cbn [fst snd]. intros [= <-].
  exists raw, source, tr, client, messages, tc.
  split; [reflexivity |].
  split; [apply truthy_nonempty; exact Ht |].
  split; [reflexivity |]. split; [exact Hb |].
  split; [exact Hc |]. split; reflexivity.
Qed.

Lemma review_ok_response_witness :
  exists raw source tr tc,
    server.read_source
      (Sample.form (Some Sample.test_model) None
         (Some (Sample.upload (Some Sample2.draft_pdf) None
                              Sample.pdf_bytes)))
      Sample.env
    = (Ok (raw, source), tr)
    /\ Py.strip raw <> []
    /\ snd (server.review
              (Sample.form (Some Sample.test_model) None
                 (Some (Sample.upload (Some Sample2.draft_pdf) None
                                      Sample.pdf_bytes)))
              Sample.env)
       = tr ++ ClientNew (Some Sample.test_model) None :: tc.
Proof.
  destruct (review_ok_response Sample.env
              (Sample.form (Some Sample.test_model) None
                 (Some (Sample.upload (Some Sample2.draft_pdf) None
                                      Sample.pdf_bytes)))
              {| server.review_text := Sample.reply;
                 server.meta :=
                   {| server.meta_domain := Py.lit "ML";
                      server.meta_language := Py.lit "zh";
                      server.meta_model := Py.lit "gpt-4o-mini";
                      server.meta_base_url := None;
                      server.paper_source := Sample2.draft_pdf;
                      server.text_chars := 14 |} |})
    as [raw [source [tr [client [messages [tc [Hs [Hn [_ [_ [_ [Ht _]]]]]]]]]]]].
  - vm_compute. reflexivity.
  - exists raw, source, tr, tc. split; [exact Hs | split; [exact Hn | exact Ht]].
Defined.

(** ** Which sources are opened *)

Lemma pdf_bytes_trace (P : Event -> Prop) (data : bytes) env :
  P (PdfParse data) -> P PageExtract ->
  Forall P (snd (review_agent._read_pdf_bytes data env)).
Proof.
  intros Hp He. unfold review_agent._read_pdf_bytes. apply bind_trace.
  - apply Forall_cons; [exact Hp | apply Forall_nil].
  - intros pages _. apply bind_trace.
    + apply page_texts_trace. exact He.
    + intros. apply Forall_nil.
Qed.

Lemma read_pdf_bytes_head (data : bytes) env :
  exists rest,
    snd (review_agent._read_pdf_bytes data env) = PdfParse data :: rest.
Proof.
  unfold review_agent._read_pdf_bytes, bind at 1, call.
  destruct (PdfReader env data); [| simpl; eexists; reflexivity].
  destruct (bind _ _ env). simpl. eexists. reflexivity.
Qed.

(** Reading a local path: one [FileOpen], then at most PDF parsing. *)
Lemma read_local_trace (env : Env) (path : str) :
  exists rest,
    snd (review_agent._read_pdf path env) = FileOpen path :: rest
    /\ Forall (fun ev => opens_source ev = false) rest.
Proof.
  unfold review_agent._read_pdf, bind at 1, call at 1.
  destruct (open_read env path) as [data|e].
  - pose proof (pdf_bytes_trace (fun ev => opens_source ev = false) data env
                  eq_refl eq_refl) as T.
    unfold review_agent._read_pdf_bytes in T.
    destruct (bind (call (PdfParse data) _) _ env) as [r t].
    eexists. split; [reflexivity | exact T].
  - eexists. split; [reflexivity | apply Forall_nil].
Qed.

Lemma read_text_file_trace (env : Env) (path : str) :
  snd (review_agent._read_text_file path env) = [FileOpen path].
Proof.
  unfold review_agent._read_text_file, bind, call.
  destruct (open_read env path) as [data|e]; [| reflexivity].
  destruct (Py.decode_strict data); reflexivity.
Qed.

Lemma read_from_url_trace (env : Env) (url : str) :
  exists rest,
    snd (review_agent._read_from_url url env) = HttpGet url 30 :: rest
    /\ Forall (fun ev => opens_source ev = false) rest.
Proof.
  unfold review_agent._read_from_url, bind at 1, call at 1.
  destruct (requests_get env url 30%Z) as [resp|e].
  2:{ eexists. split; [reflexivity | apply Forall_nil]. }
  unfold bind at 1, lift.
  destruct (requests.raise_for_status resp).
  2:{ eexists. split; [reflexivity | apply Forall_nil]. }
  destruct (_ || _).
  - pose proof (pdf_bytes_trace (fun ev => opens_source ev = false)
                  (requests.content resp) env eq_refl eq_refl) as T.
    destruct (review_agent._read_pdf_bytes (requests.content resp) env).
    eexists. split; [reflexivity | exact T].
  - eexists. split; [reflexivity | apply Forall_nil].
Qed.

(** X8: [read_paper] opens at most one source (standard input, one file
    or one URL) per call, and besides that only parses a PDF: it never
    writes, prints or calls the model. *)
Theorem read_paper_opens_one_source (env : Env) (source : str) :
  length (filter opens_source (snd (review_agent.read_paper source env)))
  <= 1
  /\ Forall (fun ev => ingestion ev = true)
            (snd (review_agent.read_paper source env)).
Proof.
  split; [| apply read_paper_ingestion].
  unfold review_agent.read_paper.
  destruct (Py.str_eqb source (Py.lit "-")); [simpl; lia |].
  unfold bind, lift_env.
  destruct (urlparse env source) as [parsed|e]; [| simpl; lia].
  cbn [app].
  destruct (Py.str_in _ _); [| destruct (Py.endswith _ _)].
  - destruct (read_from_url_trace env source) as [rest [E F]].
    destruct (review_agent._read_from_url source env) as [r t].
    cbn [snd] in *. subst t. cbn [filter opens_source].
    rewrite (filter_none _ _ F). simpl. lia.
  - destruct (read_local_trace env source) as [rest [E F]].
    destruct (review_agent._read_pdf source env) as [r t].
    cbn [snd] in *. subst t. cbn [filter opens_source].
    rewrite (filter_none _ _ F). simpl. lia.
  - pose proof (read_text_file_trace env source) as E.
    destruct (review_agent._read_text_file source env) as [r t].
    cbn [snd] in *. subst t. simpl. lia.
Qed.

(** ** Failure of the PDF Extractor *)

Lemma page_text_run (pg : pypdf.PageObject) env :
  review_agent.page_text pg env
  = (match pypdf.extract_text pg with
     | Ok t => Ok (Py.or_else t [])
     | Raise e => Raise e
     end, [PageExtract]).
Proof.
  unfold review_agent.page_text, bind, call, ret.
  destruct (pypdf.extract_text pg); reflexivity.
Qed.

Lemma page_texts_cons (pg : pypdf.PageObject)
      (pages : list pypdf.PageObject) env :
  mapM review_agent.page_text (pg :: pages) env
  = match pypdf.extract_text pg with
    | Raise e => (Raise e, [PageExtract])
    | Ok t =>
      match mapM review_agent.page_text pages env with
      | (Ok ys, tr) => (Ok (Py.or_else t [] :: ys), PageExtract :: tr)
      | (Raise e, tr) => (Raise e, PageExtract :: tr)
      end
    end.
Proof.
  cbn [mapM]. unfold bind at 1. rewrite page_text_run.
  destruct (pypdf.extract_text pg) as [t|e]; [| reflexivity].
  unfold bind, ret.
  destruct (mapM review_agent.page_text pages env) as [[ys|e] tr];
    simpl; rewrite ?app_nil_r; reflexivity.
Qed.

Lemma page_texts_failure (pages : list pypdf.PageObject) env e :
  fst (mapM review_agent.page_text pages env) = Raise e ->
  exists before page after,
    pages = before ++ page :: after
    /\ pypdf.extract_text page = Raise e
    /\ (forall p, In p before -> exists t, pypdf.extract_text p = Ok t)
    /\ snd (mapM review_agent.page_text pages env)
       = repeat PageExtract (S (length before)).
Proof.
  induction pages as [|pg pages IH].
  - discriminate.
  - rewrite page_texts_cons.
    destruct (pypdf.extract_text pg) as [t|e0] eqn:Hpg.
    + destruct (mapM review_agent.page_text pages env) as [[ys|e1] tr].
      * discriminate.
      * cbn [fst snd] in *. intros [= ->].
        destruct (IH eq_refl) as [before [page [after [Hp [He [Hb Ht]]]]]].
        exists (pg :: before), page, after. subst pages tr.
        split; [reflexivity | split; [exact He | split]].
        -- intros p [<- | Hin]; [eauto | apply Hb; exact Hin].
        -- reflexivity.
    + cbn [fst snd]. intros [= ->].
      exists [], pg, pages.
      split; [reflexivity | split; [exact Hpg | split]].
      * intros p [].
      * reflexivity.
Qed.

Lemma read_pdf_bytes_run (data : bytes) env :
  review_agent._read_pdf_bytes data env
  = match PdfReader env data with
    | Raise e => (Raise e, [PdfParse data])
    | Ok pages =>
      match mapM review_agent.page_text pages env with
      | (Ok texts, tr) => (Ok (Py.join Py.nl texts), PdfParse data :: tr)
      | (Raise e, tr) => (Raise e, PdfParse data :: tr)
      end
    end.
Proof.
  unfold review_agent._read_pdf_bytes. unfold bind at 1. unfold call.
  destruct (PdfReader env data) as [pages|e]; [| reflexivity].
  unfold bind, ret.
  destruct (mapM review_agent.page_text pages env) as [[texts|e] tr];
    simpl; rewrite ?app_nil_r; reflexivity.
Qed.

Lemma page_texts_all_ok (pages : list pypdf.PageObject) env texts :
  fst (mapM review_agent.page_text pages env) = Ok texts ->
  forall page, In page pages -> exists t, pypdf.extract_text page = Ok t.
Proof.
  revert texts; induction pages as [|pg pages IH]; intros texts H page Hin.
  - contradiction.
  - rewrite page_texts_cons in H.
    destruct (pypdf.extract_text pg) as [t|e] eqn:Hpg; [| discriminate].
    destruct (mapM review_agent.page_text pages env) as [[ys|e] tr];
      [| discriminate].
    destruct Hin as [<- | Hin]; [eauto |].
    apply (IH ys eq_refl page Hin).
Qed.

(** C4, as the code has it: when the bytes parse to N pages and text
    extraction returns on each of them, the extractor returns the page
    texts, in page order, joined by N-1 line feeds; a page with no text
    (none, or the empty string) contributes the empty string, so a
    document of blank pages gives N-1 line feeds and no error.  The
    extractor fails exactly when [pypdf] does: when [PdfReader] raises, or
    when text extraction raises on a page of a document that did parse. *)
Theorem pdf_extractor_joins_pages (env : Env) (data : bytes) :
  (forall pages texts,
      PdfReader env data = Ok pages ->
      map pypdf.extract_text pages = map Ok texts ->
      let page_strings := map (fun t => Py.or_else t []) texts in
      fst (review_agent.read_pdf_bytes data env)
      = Ok (Py.join Py.nl page_strings)
      /\ length page_strings = length pages
      /\ length (Py.join Py.nl page_strings)
         = list_sum (map (@length codepoint) page_strings)
           + (length pages - 1)
      /\ ((forall t, In t texts -> t = None \/ t = Some []) ->
          Py.join Py.nl page_strings = repeat 10%N (length pages - 1)))
  /\ (forall e,
         fst (review_agent.read_pdf_bytes data env) = Raise e ->
         PdfReader env data = Raise e
         \/ exists pages page,
             PdfReader env data = Ok pages
             /\ In page pages /\ pypdf.extract_text page = Raise e)
  /\ (forall e,
         PdfReader env data = Raise e ->
         fst (review_agent.read_pdf_bytes data env) = Raise e)
  /\ (forall pages page e,
         PdfReader env data = Ok pages ->
         In page pages ->
         pypdf.extract_text page = Raise e ->
         exists e', fst (review_agent.read_pdf_bytes data env) = Raise e').
Proof.
  split; [| split; [| split]].
  - intros pages texts Hp Ht. exact (read_pdf_bytes_joins env data pages texts Hp Ht).
  - intros e. unfold review_agent.read_pdf_bytes. rewrite read_pdf_bytes_run.
    destruct (PdfReader env data) as [pages|e0].
    + pose proof (page_texts_failure pages env e) as F.
      destruct (mapM review_agent.page_text pages env) as [[ys|e1] tr].
      * discriminate.
      * cbn [fst] in *. intros [= ->]. right.
        destruct (F eq_refl) as [before [page [after [Hp [He _]]]]].
        exists pages, page. split; [reflexivity | split; [| exact He]].
        subst pages. apply in_or_app. right. left. reflexivity.
    + cbn [fst]. intros [= ->]. left. reflexivity.
  - intros e Hr. unfold review_agent.read_pdf_bytes.
    rewrite read_pdf_bytes_run, Hr. reflexivity.
  - intros pages page e Hr Hin He. unfold review_agent.read_pdf_bytes.
    rewrite read_pdf_bytes_run, Hr.
    pose proof (page_texts_all_ok pages env) as A.
    destruct (mapM review_agent.page_text pages env) as [[ys|e1] tr].
    + destruct (A ys eq_refl page Hin) as [t Ht]. congruence.
    + exists e1. reflexivity.
Qed.

Lemma pdf_extractor_joins_pages_witness :
  fst (review_agent.read_pdf_bytes Sample.pdf_bytes Sample.env)
  = Ok Sample2.pdf_text.
Proof.
  exact (proj1 (proj1 (pdf_extractor_joins_pages Sample.env Sample.pdf_bytes)
                      Sample.pages
                      [Some (Py.lit "Intro"); None; Some (Py.lit "Results")]
                      eq_refl eq_refl)).
Defined.

(** C4 as stated fails on a document that parses but has a page whose
    text cannot be extracted: [PdfReader] returns three pages, the second
    one raises in [extract_text], and the extractor raises with it. *)
Lemma pdf_extractor_counterexample :
  PdfReader Sample2.env_broken_page Sample.pdf_bytes
  = Ok Sample2.broken_pages
  /\ length Sample2.broken_pages = 3
  /\ fst (review_agent.read_pdf_bytes Sample.pdf_bytes
                                      Sample2.env_broken_page)
     = Raise PdfReadError.
Proof. repeat split. Qed.

(** X9: the PDF Extractor raises only what [pypdf] raised.  Either
    [PdfReader] failed, and no page was touched; or text extraction failed
    on some page, all pages before it were extracted, and none after
    it. *)
Theorem pdf_extractor_failure (env : Env) (data : bytes) (e : exn) :
  fst (review_agent.read_pdf_bytes data env) = Raise e ->
  (PdfReader env data = Raise e
   /\ snd (review_agent.read_pdf_bytes data env) = [PdfParse data])
  \/ (exists pages before page after,
         PdfReader env data = Ok pages
         /\ pages = before ++ page :: after
         /\ pypdf.extract_text page = Raise e
         /\ (forall p, In p before -> exists t, pypdf.extract_text p = Ok t)
         /\ snd (review_agent.read_pdf_bytes data env)
            = PdfParse data :: repeat PageExtract (S (length before))).
Proof.
  unfold review_agent.read_pdf_bytes. rewrite read_pdf_bytes_run.
  destruct (PdfReader env data) as [pages|e0].
  - pose proof (page_texts_failure pages env e) as F.
    destruct (mapM review_agent.page_text pages env) as [[ys|e1] tr].
    + discriminate.
    + cbn [fst snd] in *. intros [= ->]. right.
      destruct (F eq_refl) as [before [page [after [Hp [He [Hb Ht]]]]]].
      exists pages, before, page, after. rewrite Ht. auto.
  - cbn [fst snd]. intros [= ->]. left. auto.
Qed.

Lemma pdf_extractor_failure_witness :
  exists pages before page after,
    PdfReader Sample2.env_broken_page Sample.pdf_bytes = Ok pages
    /\ pages = before ++ page :: after
    /\ pypdf.extract_text page = Raise PdfReadError
    /\ snd (review_agent.read_pdf_bytes Sample.pdf_bytes
                                        Sample2.env_broken_page)
       = PdfParse Sample.pdf_bytes :: repeat PageExtract (S (length before)).
Proof.
  destruct (pdf_extractor_failure Sample2.env_broken_page Sample.pdf_bytes
              PdfReadError eq_refl)
    as [[H _] | [pages [before [page [after [H1 [H2 [H3 [_ H4]]]]]]]]].
  - discriminate H.
  - exists pages, before, page, after. auto.
Defined.

(** ** The endpoint, once more *)

Lemma read_source_url (env : Env) (req : server.Form) (url : str) :
  server.file req = None ->
  server.paper_url req = Some url ->
  url <> [] ->
  server.read_source req env
  = (match fst (review_agent.read_paper url env) with
     | Ok text => Ok (text, url)
     | Raise e => Raise e
     end, snd (review_agent.read_paper url env)).
Proof.
  intros Hf Hu Hn. unfold server.read_source. rewrite Hf, Hu.
  apply truthy_nonempty in Hn. rewrite Hn. unfold bind, ret.
  destruct (review_agent.read_paper url env) as [[text|e] tr];
    simpl; rewrite ?app_nil_r; reflexivity.
Qed.

(** Once the two field checks have passed, [review] reads the paper and
    then only builds the client and calls the model. *)
Lemma review_trace_after_checks (env : Env) (req : server.Form) :
  Py.truthy_opt (server.api_key req) = true ->
  server.is_some (server.file req) || Py.truthy_opt (server.paper_url req)
  = true ->
  exists rest,
    snd (server.review req env) = snd (server.read_source req env) ++ rest
    /\ Forall (fun ev => client_call ev = true) rest.
Proof.
  intros Hk Hs. rewrite review_run, Hk, Hs. cbn [negb].
  destruct (server.read_source req env) as [[[raw source]|e0] tr].
  2:{ exists []. cbn [snd]. rewrite app_nil_r.
      split; [reflexivity | apply Forall_nil]. }
  destruct (negb (Py.truthy (Py.strip raw))).
  { exists []. cbn [snd]. rewrite app_nil_r.
    split; [reflexivity | apply Forall_nil]. }
  cbv zeta.
  destruct (OpenAI env _ _) as [client|e0].
  2:{ eexists. split; [reflexivity |]. repeat constructor. }
  destruct (review_agent.build_messages _ _ _ _) as [messages|e0].
  2:{ eexists. split; [reflexivity |]. repeat constructor. }
  destruct (review_agent.call_model client _ messages _ env)
    as [[review|e0] tc] eqn:Hc;
    apply call_model_trace_eq in Hc; subst tc;
    (eexists; split; [reflexivity |]; repeat constructor).
Qed.

(** A source that is neither [-] nor an http(s) URL is opened as a local
    file, and nothing else is opened. *)
Lemma read_paper_local (env : Env) (source : str)
      (parsed : urllib.ParseResult) :
  source <> Py.lit "-" ->
  urlparse env source = Ok parsed ->
  ~ In (urllib.scheme parsed) [Py.lit "http"; Py.lit "https"] ->
  exists rest,
    snd (review_agent.read_paper source env) = FileOpen source :: rest
    /\ Forall (fun ev => opens_source ev = false) rest.
Proof.
  intros Hs Hp Hn. unfold review_agent.read_paper.
  destruct (Py.str_eqb source (Py.lit "-")) eqn:E.
  { apply str_eqb_eq in E. contradiction. }
  unfold bind, lift_env. rewrite Hp.
  destruct (Py.str_in _ _) eqn:Hin.
  { apply str_in_spec in Hin. contradiction. }
  cbn [app].
  destruct (Py.endswith _ _).
  - destruct (read_local_trace env source) as [rest [Et F]].
    destruct (review_agent._read_pdf source env) as [r t].
    cbn [snd] in *. exists rest. split; assumption.
  - pose proof (read_text_file_trace env source) as Et.
    destruct (review_agent._read_text_file source env) as [r t].
    cbn [snd] in *. exists []. split; [exact Et | apply Forall_nil].
Qed.

(** X6: [review] hands [paper_url] to [read_paper] as it is, so the field
    is not limited to URLs.  With no file uploaded, the value [-] makes
    the server read its own standard input, and a value whose scheme is
    neither [http] nor [https] is opened as a file on the server, with no
    HTTP request at all; a successful answer names that value as its
    [paper_source]. *)
Theorem review_url_is_any_source (env : Env) (req : server.Form)
        (url : str) :
  Py.truthy_opt (server.api_key req) = true ->
  server.file req = None ->
  server.paper_url req = Some url ->
  url <> [] ->
  (url = Py.lit "-" ->
   exists rest, snd (server.review req env) = StdinRead :: rest)
  /\ (url <> Py.lit "-" ->
      forall parsed,
        urlparse env url = Ok parsed ->
        ~ In (urllib.scheme parsed) [Py.lit "http"; Py.lit "https"] ->
        (exists rest, snd (server.review req env) = FileOpen url :: rest)
        /\ filter is_http_get (snd (server.review req env)) = [])
  /\ (forall response,
         fst (server.review req env) = Ok response ->
         server.paper_source (server.meta response) = url).
Proof.
  intros Hk Hf Hu Hn.
  pose proof (read_source_url env req url Hf Hu Hn) as Hs.
  assert (Hchecks : server.is_some (server.file req)
                    || Py.truthy_opt (server.paper_url req) = true).
  { rewrite Hf, Hu. apply truthy_nonempty in Hn. simpl. exact Hn. }
  destruct (review_trace_after_checks env req Hk Hchecks) as [rest [Et Fr]].
  rewrite Hs in Et. cbn [snd] in Et.
  split; [| split].
  - intros ->. rewrite Et. eexists. reflexivity.
  - intros Hd parsed Hp Hsch.
    destruct (read_paper_local env url parsed Hd Hp Hsch) as [r0 [E0 F0]].
    rewrite Et, E0. split; [eexists; reflexivity |].
    cbn [app filter is_http_get]. rewrite filter_app.
    rewrite (filter_none is_http_get r0), (filter_none is_http_get rest).
    + reflexivity.
    + revert Fr. apply Forall_impl. intros [] H; try reflexivity; discriminate.
    + revert F0. apply Forall_impl. intros [] H; try reflexivity; discriminate.
  - intros response. rewrite review_run, Hk, Hchecks, Hs. cbn [negb].
    destruct (fst (review_agent.read_paper url env)) as [text|e0];
      [| discriminate].
    destruct (negb (Py.truthy (Py.strip text))); [discriminate |].
    cbv zeta.
    destruct (OpenAI env _ _) as [client|e0]; [| discriminate].
    destruct (review_agent.build_messages _ _ _ _) as [messages|e0];
      [| discriminate].
    destruct (review_agent.call_model client _ messages _ env)
      as [[review|e0] tc]; [| discriminate].
    cbn [fst]. intros [= <-]. reflexivity.
Qed.

Lemma review_url_is_any_source_witness :
  (exists rest,
      snd (server.review
             (Sample.form (Some Sample.test_model) (Some [45%N]) None)
             Sample.env) = StdinRead :: rest)
  /\ (exists rest,
         snd (server.review
                (Sample.form (Some Sample.test_model)
                             (Some Sample2.sample_txt) None)
                Sample.env) = FileOpen Sample2.sample_txt :: rest).
Proof.
  split.
  - exact (proj1 (review_url_is_any_source Sample.env
                    (Sample.form (Some Sample.test_model) (Some [45%N]) None)
                    [45%N] eq_refl eq_refl eq_refl
                    ltac:(discriminate))
                 eq_refl).
  - refine (proj1 (proj1 (proj2 (review_url_is_any_source Sample.env
                     (Sample.form (Some Sample.test_model)
                                  (Some Sample2.sample_txt) None)
                     Sample2.sample_txt eq_refl eq_refl eq_refl
                     ltac:(discriminate)))
                  _ _ eq_refl _)).
    + discriminate.
    + intros [H | [H | []]]; discriminate H.
Defined.

(** X7: an upload goes to the PDF Extractor if and only if its lower-cased
    name ends in [.pdf] or its lower-cased content type contains [pdf];
    either sign alone is enough, a missing name or type counts as empty,
    and any other upload is decoded as text without parsing anything. *)
Theorem upload_pdf_detection (env : Env) (f : server.UploadFile) :
  server.data f <> [] ->
  let by_name :=
    exists front,
      Py.lower (Py.or_else (server.filename f) []) = front ++ Py.lit ".pdf" in
  let by_type :=
    substring (Py.lit "pdf")
              (Py.lower (Py.or_else (server.content_type f) [])) in
  (by_name \/ by_type ->
   server.read_upload f env
   = (match fst (review_agent.read_pdf_bytes (server.data f) env) with
      | Ok text => Ok (text, upload_label f)
      | Raise e => Raise e
      end, snd (review_agent.read_pdf_bytes (server.data f) env))
   /\ In (PdfParse (server.data f)) (snd (server.read_upload f env)))
  /\ (~ (by_name \/ by_type) ->
      server.read_upload f env
      = (Ok (Py.decode_ignore (server.data f), upload_label f), [])).
Proof.
  intros Hd by_name by_type.
  assert (Hcond : Py.endswith (Py.lower (Py.or_else (server.filename f) []))
                              (Py.lit ".pdf")
                  || Py.contains (Py.lit "pdf")
                       (Py.lower (Py.or_else (server.content_type f) []))
                  = true <-> by_name \/ by_type).
  { rewrite orb_true_iff, endswith_spec, contains_spec. reflexivity. }
  assert (L : Py.or_else (Some (Py.or_else (server.filename f) []))
                         (Py.lit "uploaded-file") = upload_label f).
  { unfold upload_label.
    destruct (server.filename f) as [[|c name]|]; reflexivity. }
  apply truthy_nonempty in Hd.
  unfold server.read_upload. rewrite Hd, L. cbn [negb].
  split.
  - intros H. apply Hcond in H. rewrite H. unfold bind, ret.
    destruct (read_pdf_bytes_head (server.data f) env) as [rest Eh].
    unfold review_agent.read_pdf_bytes.
    destruct (review_agent._read_pdf_bytes (server.data f) env)
      as [[text|e] tr]; cbn [fst snd] in *; subst tr;
      rewrite ?app_nil_r; (split; [reflexivity | left; reflexivity]).
  - intros H. destruct (_ || _) eqn:E.
    + exfalso. apply H, Hcond. reflexivity.
    + reflexivity.
Qed.

Lemma upload_pdf_detection_witness :
  In (PdfParse Sample.pdf_bytes)
     (snd (server.read_upload
             (Sample.upload None (Some (Py.lit "Application/PDF"))
                            Sample.pdf_bytes)
             Sample.env)).
Proof.
  refine (proj2 (proj1 (upload_pdf_detection Sample.env
                          (Sample.upload None (Some (Py.lit "Application/PDF"))
                                         Sample.pdf_bytes)
                          _)
                       _)).
  - discriminate.
  - right. exists (Py.lit "application/"), []. reflexivity.
Defined.

(** ** The prompt ends with the paper *)

Lemma render_ext (segs : list Format.segment) (kw kw' : list (str * str)) :
  (forall n, In n (Format.fields segs) ->
             Format.lookup kw n = Format.lookup kw' n) ->
  Format.render segs kw = Format.render segs kw'.
Proof.
  induction segs as [|[c|name] segs IH]; simpl; intros H.
  - reflexivity.
  - rewrite (IH H). reflexivity.
  - rewrite (H name) by (left; reflexivity).
    rewrite IH by (intros n Hn; apply H; right; exact Hn). reflexivity.
Qed.

Lemma render_snoc_field (init : list Format.segment) (kw : list (str * str))
      (name v prefix : str) :
  Format.render init kw = Ok prefix ->
  Format.lookup kw name = Some v ->
  Format.render (init ++ [Format.Field name]) kw = Ok (prefix ++ v).
Proof.
  revert prefix; induction init as [|[c|n] init IH]; simpl; intros prefix Hr Hl.
  - injection Hr as <-. rewrite Hl, app_nil_r. reflexivity.
  - destruct (Format.render init kw) as [s|e]; [| discriminate].
    injection Hr as <-. rewrite (IH s eq_refl Hl). reflexivity.
  - destruct (Format.lookup kw n) as [w|]; [| discriminate].
    destruct (Format.render init kw) as [s|e]; [| discriminate].
    injection Hr as <-. rewrite (IH s eq_refl Hl), app_assoc. reflexivity.
Qed.

Lemma template_en_tail :
  exists init,
    Format.parse Format.InText review_agent.template_en
    = Some (init ++ [Format.Field (Py.lit "paper")])
    /\ Format.fields init = [Py.lit "domain"].
Proof.
  exists (match Format.parse Format.InText review_agent.template_en with
          | Some segs => removelast segs
          | None => []
          end).
  split; vm_compute; reflexivity.
Qed.

Lemma template_zh_tail :
  exists init,
    Format.parse Format.InText review_agent.template_zh
    = Some (init ++ [Format.Field (Py.lit "paper")])
    /\ Format.fields init = [Py.lit "domain"].
Proof.
  exists (match Format.parse Format.InText review_agent.template_zh with
          | Some segs => removelast segs
          | None => []
          end).
  split; vm_compute; reflexivity.
Qed.

Lemma format_appends_paper (template : str) (domain : str) :
  (exists init,
      Format.parse Format.InText template
      = Some (init ++ [Format.Field (Py.lit "paper")])
      /\ Format.fields init = [Py.lit "domain"]) ->
  exists prefix,
    forall paper_text,
      Format.format template
        [(Py.lit "domain", domain); (Py.lit "paper", paper_text)]
      = Ok (prefix ++ paper_text).
Proof.
  intros [init [Hp Hf]].
  destruct (render_total init [(Py.lit "domain", domain)]) as [prefix Hr].
  { rewrite Hf. intros n [<- | []]. vm_compute. discriminate. }
  exists prefix. intros paper_text. unfold Format.format. rewrite Hp.
  apply render_snoc_field; [| reflexivity].
  rewrite <- Hr. apply render_ext.
  rewrite Hf. intros n [<- | []]. reflexivity.
Qed.

(** ** Uploads take precedence *)

Lemma read_upload_run (env : Env) (f : server.UploadFile) :
  server.data f <> [] ->
  server.read_upload f env
  = (match fst (if Py.endswith (Py.lower (Py.or_else (server.filename f) []))
                               (Py.lit ".pdf")
                   || Py.contains (Py.lit "pdf")
                        (Py.lower (Py.or_else (server.content_type f) []))
                then review_agent.read_pdf_bytes (server.data f) env
                else (Ok (Py.decode_ignore (server.data f)), [])) with
     | Ok text => Ok (text, upload_label f)
     | Raise e => Raise e
     end,
     snd (if Py.endswith (Py.lower (Py.or_else (server.filename f) []))
                         (Py.lit ".pdf")
             || Py.contains (Py.lit "pdf")
                  (Py.lower (Py.or_else (server.content_type f) []))
          then review_agent.read_pdf_bytes (server.data f) env
          else (Ok (Py.decode_ignore (server.data f)), []))).
Proof.
  intros Hd. apply truthy_nonempty in Hd.
  assert (L : Py.or_else (Some (Py.or_else (server.filename f) []))
                         (Py.lit "uploaded-file") = upload_label f).
  { unfold upload_label.
    destruct (server.filename f) as [[|c name]|]; reflexivity. }
  unfold server.read_upload. rewrite Hd, L. cbn [negb].
  unfold bind, ret.
  destruct (_ || _).
  - destruct (review_agent.read_pdf_bytes (server.data f) env)
      as [[text|e] tr]; cbn [fst snd]; rewrite ?app_nil_r; reflexivity.
  - reflexivity.
Qed.

(** C9: when a request carries an upload that is not empty, the upload
    alone gives the paper text.  [review] answers the same whatever
    [paper_url] holds; what it reads is the upload, through the PDF
    Extractor or the decoder; it opens no URL, no file and no standard
    input; with an API key, the model receives the messages built from
    the trimmed text of the upload; and a successful answer reports the
    file name, or [uploaded-file] when the name is missing or empty, as
    its [paper_source], and the length of that trimmed text. *)
Theorem upload_overrides_url (env : Env) (req : server.Form)
        (f : server.UploadFile) :
  server.file req = Some f ->
  server.data f <> [] ->
  let reader :=
    if Py.endswith (Py.lower (Py.or_else (server.filename f) []))
                   (Py.lit ".pdf")
       || Py.contains (Py.lit "pdf")
            (Py.lower (Py.or_else (server.content_type f) []))
    then review_agent.read_pdf_bytes (server.data f) env
    else (Ok (Py.decode_ignore (server.data f)), []) in
  (forall url,
      server.review (with_paper_url req url) env = server.review req env)
  /\ server.read_source req env
     = (match fst reader with
        | Ok text => Ok (text, upload_label f)
        | Raise e => Raise e
        end, snd reader)
  /\ filter opens_source (snd (server.review req env)) = []
  /\ (forall raw client,
         Py.truthy_opt (server.api_key req) = true ->
         fst reader = Ok raw ->
         Py.strip raw <> [] ->
         OpenAI env (server.api_key req) (server.base_url req) = Ok client ->
         exists messages,
           review_agent.build_messages (server.domain req) (server.tone req)
             (Py.strip raw) (server.language req) = Ok messages
           /\ snd (server.review req env)
              = snd reader
                ++ [ClientNew (server.api_key req) (server.base_url req);
                    ChatCreate client (server.model req)
                               (server.temperature req) messages]
           /\ (forall response,
                  fst (server.review req env) = Ok response ->
                  server.paper_source (server.meta response) = upload_label f
                  /\ server.text_chars (server.meta response)
                     = length (Py.strip raw))).
Proof.
  intros Hf Hd reader.
  pose proof (read_upload_run env f Hd) as Hu. fold reader in Hu.
  assert (Hs : server.read_source req env
               = (match fst reader with
                  | Ok text => Ok (text, upload_label f)
                  | Raise e => Raise e
                  end, snd reader)).
  { unfold server.read_source. rewrite Hf. exact Hu. }
  assert (Hchecks : server.is_some (server.file req)
                    || Py.truthy_opt (server.paper_url req) = true)
    by (rewrite Hf; reflexivity).
  assert (Hreader : Forall (fun ev => opens_source ev = false) (snd reader)).
  { unfold reader. destruct (_ || _); [| apply Forall_nil].
    apply pdf_bytes_trace; reflexivity. }
  split; [| split; [exact Hs | split]].
  - intros url.
    rewrite (review_with_file env (with_paper_url req url) f Hf).
    rewrite (review_with_file env req f Hf). reflexivity.
  - destruct (Py.truthy_opt (server.api_key req)) eqn:Hk.
    2:{ rewrite review_run, Hk. reflexivity. }
    destruct (review_trace_after_checks env req Hk Hchecks) as [rest [Et Fr]].
    rewrite Et, Hs, filter_app. cbn [snd].
    rewrite (filter_none opens_source (snd reader) Hreader).
    apply filter_none. revert Fr. apply Forall_impl.
    intros [] H; try reflexivity; discriminate.
  - intros raw client Hk Hraw Hne Hc.
    destruct (build_messages_shape (server.domain req) (server.tone req)
                (Py.strip raw) (server.language req))
      as [sm [um [Hm _]]].
    eexists. split; [exact Hm |].
    rewrite review_run, Hk, Hchecks, Hs, Hraw, Hc, Hm. cbn [negb].
    apply truthy_nonempty in Hne. rewrite Hne. cbn [negb]. cbv zeta.
    rewrite call_model_run.
    destruct (match chat_completions_create env client _ _ _ with
              | Ok _ => _ | Raise e => _ end) as [review|e].
    + split; [reflexivity |]. cbn [fst]. intros response [= <-].
      split; reflexivity.
    + split; [reflexivity |]. intros response H. discriminate H.
Qed.

Lemma upload_overrides_url_witness :
  exists response,
    fst (server.review Sample2.form_both Sample.env) = Ok response
    /\ server.paper_source (server.meta response) = Sample2.draft_pdf
    /\ server.text_chars (server.meta response) = 14
    /\ server.review (with_paper_url Sample2.form_both None) Sample.env
       = server.review Sample2.form_both Sample.env.
Proof.
  destruct (upload_overrides_url Sample.env Sample2.form_both
              (Sample.upload (Some Sample2.draft_pdf) None Sample.pdf_bytes)
              eq_refl ltac:(discriminate))
    as [Hurl [_ [_ H]]].
  destruct (H Sample2.pdf_text
              {| openai.api_key := Some Sample.test_model;
                 openai.base_url := None |}
              eq_refl eq_refl ltac:(discriminate) eq_refl)
    as [messages [_ [_ Hr]]].
  assert (E : exists response,
             fst (server.review Sample2.form_both Sample.env) = Ok response).
  { eexists. vm_compute. reflexivity. }
  destruct E as [response E]. exists response.
  destruct (Hr response E) as [Hsrc Hlen].
  split; [exact E | split; [exact Hsrc | split; [exact Hlen |]]].
  apply Hurl.
Defined.

(** ** What [errors="ignore"] keeps and what it drops *)

Lemma chars_app (a b : list Py.utf8_item) :
  Py.chars (a ++ b) = Py.chars a ++ Py.chars b.
Proof.
  induction a as [|[c|range] a IH]; simpl; congruence.
Qed.

(** A valid prefix is scanned on its own: the scan of what follows starts
    afresh behind it. *)
Lemma utf8_scan_app_valid (n : nat) :
  forall valid rest,
    length valid <= n ->
    Py.has_bad (Py.utf8_scan valid) = false ->
    Py.utf8_scan (valid ++ rest) = Py.utf8_scan valid ++ Py.utf8_scan rest.
Proof.
  induction n as [|n IH]; intros v rest Hlen H.
  { destruct v; [reflexivity | simpl in Hlen; lia]. }
  destruct v as [|b v]; [reflexivity |].
  simpl in Hlen. change ((b :: v) ++ rest) with (b :: (v ++ rest)).
  rewrite (utf8_scan_cons b (v ++ rest)).
  rewrite (utf8_scan_cons b v) in H |- *. cbv zeta in *.
  destruct (Byte.to_N b <? 128)%N.
  { cbn [Py.has_bad] in H. cbn [app]. f_equal. apply IH; [lia | exact H]. }
  destruct (Byte.to_N b <? 194)%N; [discriminate H |].
  destruct v as [|c1 r1].
  { exfalso.
    repeat match type of H with context [if ?c then _ else _] =>
                                  destruct c end; discriminate H. }
  simpl in Hlen. cbn [app] in *.
  destruct (Byte.to_N b <? 224)%N.
  { destruct (Py.is_cont c1); [| discriminate H].
    cbn [Py.has_bad] in H. cbn [app]. f_equal. apply IH; [lia | exact H]. }
  destruct (Py.second_ok b c1).
  2:{ destruct (Byte.to_N b <? 240)%N; [discriminate H |].
      destruct (Byte.to_N b <? 245)%N; discriminate H. }
  destruct r1 as [|c2 r2].
  { destruct (Byte.to_N b <? 240)%N; [discriminate H |].
    destruct (Byte.to_N b <? 245)%N; discriminate H. }
  simpl in Hlen. cbn [app] in *.
  destruct (Py.is_cont c2).
  2:{ destruct (Byte.to_N b <? 240)%N; [discriminate H |].
      destruct (Byte.to_N b <? 245)%N; discriminate H. }
  destruct (Byte.to_N b <? 240)%N.
  { cbn [Py.has_bad] in H. cbn [app]. f_equal. apply IH; [lia | exact H]. }
  destruct (Byte.to_N b <? 245)%N; [| discriminate H].
  destruct r2 as [|c3 r3]; [discriminate H |].
  simpl in Hlen. cbn [app] in *.
  destruct (Py.is_cont c3); [| discriminate H].
  cbn [Py.has_bad] in H. cbn [app]. f_equal. apply IH; [lia | exact H].
Qed.

(** The text of a valid prefix is kept whole. *)
Lemma decode_ignore_keeps (valid : bytes) (text : str) (rest : bytes) :
  Py.decode_strict valid = Some text ->
  Py.decode_ignore (valid ++ rest) = text ++ Py.decode_ignore rest.
Proof.
  unfold Py.decode_strict, Py.decode_ignore.
  destruct (Py.has_bad (Py.utf8_scan valid)) eqn:E; [discriminate |].
  intros [= <-].
  rewrite (utf8_scan_app_valid (length valid) valid rest (le_n _) E).
  apply chars_app.
Qed.

(** A continuation byte that starts nothing is an error range of its own. *)
Lemma utf8_scan_cont (c : byte) (rest : bytes) :
  Py.is_cont c = true ->
  Py.utf8_scan (c :: rest) = Py.Bad [c] :: Py.utf8_scan rest.
Proof.
  unfold Py.is_cont. cbv zeta. rewrite andb_true_iff, !N.leb_le.
  intros [Hlo Hhi]. rewrite utf8_scan_cons. cbv zeta.
  destruct (N.ltb_spec (Byte.to_N c) 128); [lia |].
  destruct (N.ltb_spec (Byte.to_N c) 194); [reflexivity | lia].
Qed.

Lemma second_ok_cont (lead second : byte) :
  Py.second_ok lead second = true -> Py.is_cont second = true.
Proof.
  unfold Py.second_ok, Py.in_range, Py.is_cont. cbv zeta.
  repeat match goal with |- context [if ?c then _ else _] => destruct c end;
    rewrite ?andb_true_iff, ?N.leb_le; lia.
Qed.

(** A byte at which no well-formed character starts is dropped, and
    decoding resumes at the next byte. *)
Lemma decode_ignore_skips (b : byte) (rest : bytes) :
  (forall seq tail c,
      b :: rest = seq ++ tail -> Py.decode_strict seq <> Some [c]) ->
  Py.decode_ignore (b :: rest) = Py.decode_ignore rest.
Proof.
  intros H. unfold Py.decode_ignore. rewrite utf8_scan_cons. cbv zeta.
  destruct (Byte.to_N b <? 128)%N eqn:E1.
  { exfalso. apply (H [b] rest (Byte.to_N b) eq_refl).
    unfold Py.decode_strict. rewrite utf8_scan_cons. cbv zeta.
    rewrite E1. reflexivity. }
  destruct (Byte.to_N b <? 194)%N eqn:E2; [reflexivity |].
  destruct rest as [|c1 r1].
  { repeat match goal with |- context [if ?c then _ else _] =>
                             destruct c end; reflexivity. }
  destruct (Byte.to_N b <? 224)%N eqn:E3.
  { destruct (Py.is_cont c1) eqn:C1; [| reflexivity].
    exfalso. apply (H [b; c1] r1 (Py.cp2 b c1) eq_refl).
    unfold Py.decode_strict. rewrite utf8_scan_cons. cbv zeta.
    rewrite E1, E2, E3, C1. reflexivity. }
  destruct (Py.second_ok b c1) eqn:S1.
  2:{ destruct (Byte.to_N b <? 240)%N; [reflexivity |].
      destruct (Byte.to_N b <? 245)%N; reflexivity. }
  pose proof (utf8_scan_cont c1 r1 (second_ok_cont b c1 S1)) as K1.
  destruct r1 as [|c2 r2].
  { rewrite K1.
    destruct (Byte.to_N b <? 240)%N; [reflexivity |].
    destruct (Byte.to_N b <? 245)%N; reflexivity. }
  destruct (Py.is_cont c2) eqn:C2.
  2:{ rewrite K1.
      destruct (Byte.to_N b <? 240)%N; [reflexivity |].
      destruct (Byte.to_N b <? 245)%N; reflexivity. }
  pose proof (utf8_scan_cont c2 r2 C2) as K2.
  destruct (Byte.to_N b <? 240)%N eqn:E4.
  { exfalso. apply (H [b; c1; c2] r2 (Py.cp3 b c1 c2) eq_refl).
    unfold Py.decode_strict. rewrite utf8_scan_cons. cbv zeta.
    rewrite E1, E2, E3, E4, S1, C2. reflexivity. }
  destruct (Byte.to_N b <? 245)%N eqn:E5; [| reflexivity].
  destruct r2 as [|c3 r3].
  { rewrite K1, K2. reflexivity. }
  destruct (Py.is_cont c3) eqn:C3.
  - exfalso. apply (H [b; c1; c2; c3] r3 (Py.cp4 b c1 c2 c3) eq_refl).
    unfold Py.decode_strict. rewrite utf8_scan_cons. cbv zeta.
    rewrite E1, E2, E3, E4, E5, S1, C2, C3. reflexivity.
  - rewrite K1, K2. reflexivity.
Qed.

(** C10: for an upload that is not taken for a PDF, [review] decodes the
    bytes with [errors="ignore"] and reports them under the name of the
    upload: the step returns for every byte string and leaves no trace.
    What the decoder returns is fixed by three equations: the empty input
    gives the empty text; the text of a valid prefix is kept whole, and
    decoding goes on behind it; a byte at which no well-formed character
    starts is dropped, and decoding goes on at the next byte.  So the
    result is the strict decoding of the input with some bytes removed,
    and the strict decoding itself when the input is valid UTF-8.  The
    text-file path of the Source Reader decodes strictly and raises
    [UnicodeDecodeError] on the same bytes when they are not valid
    UTF-8. *)
Theorem upload_decode_never_raises (env : Env) (f : server.UploadFile)
        (path : str) :
  let data := server.data f in
  (data <> [] ->
   Py.endswith (Py.lower (Py.or_else (server.filename f) []))
               (Py.lit ".pdf")
   || Py.contains (Py.lit "pdf")
                  (Py.lower (Py.or_else (server.content_type f) []))
   = false ->
   server.read_upload f env
   = (Ok (Py.decode_ignore data, upload_label f), []))
  /\ Py.decode_ignore [] = []
  /\ (forall valid text rest,
         Py.decode_strict valid = Some text ->
         Py.decode_ignore (valid ++ rest) = text ++ Py.decode_ignore rest)
  /\ (forall b rest,
         (forall seq tail c,
             b :: rest = seq ++ tail -> Py.decode_strict seq <> Some [c]) ->
         Py.decode_ignore (b :: rest) = Py.decode_ignore rest)
  /\ (exists kept,
         subseq kept data
         /\ Py.decode_strict kept = Some (Py.decode_ignore data))
  /\ (forall text,
         Py.decode_strict data = Some text -> Py.decode_ignore data = text)
  /\ (open_read env path = Ok data ->
      Py.decode_strict data = None ->
      review_agent._read_text_file path env
      = (Raise UnicodeDecodeError, [FileOpen path])).
Proof.
  intros data. split; [| split; [| split; [| split; [| split; [| split]]]]].
  - intros Hd Hpdf. rewrite (read_upload_run env f Hd). fold data.
    rewrite Hpdf. reflexivity.
  - reflexivity.
  - apply decode_ignore_keeps.
  - apply decode_ignore_skips.
  - apply decode_ignore_drops.
  - apply decode_ignore_valid.
  - intros Ho Hs. rewrite (read_text_file_run env path data Ho), Hs.
    reflexivity.
Qed.

Lemma upload_decode_never_raises_witness :
  server.read_upload
    (Sample.upload (Some Sample2.latin1_txt) None Sample.latin1_bytes)
    Sample.env
  = (Ok (Sample2.caf, Sample2.latin1_txt), [])
  /\ review_agent._read_text_file Sample2.latin1_txt Sample.env
     = (Raise UnicodeDecodeError, [FileOpen Sample2.latin1_txt]).
Proof.
  exact (conj
           (proj1 (upload_decode_never_raises Sample.env
                     (Sample.upload (Some Sample2.latin1_txt) None
                                    Sample.latin1_bytes)
                     Sample2.latin1_txt)
                  ltac:(discriminate) eq_refl)
           (proj2 (proj2 (proj2 (proj2 (proj2 (proj2
              (upload_decode_never_raises Sample.env
                 (Sample.upload (Some Sample2.latin1_txt) None
                                Sample.latin1_bytes)
                 Sample2.latin1_txt))))))
              eq_refl eq_refl)).
Defined.

(** ** The prompt and the paper *)

(** X10: the user message is a prefix followed by the paper text, and
    the prefix is fixed by the domain and the language alone, the system
    message by the domain and the tone alone: whatever the paper holds,
    braces included, it is appended as it is and nothing comes after
    it. *)
Theorem build_messages_appends_paper :
  exists (system_of prefix_of : str -> str -> str),
    forall domain tone language paper_text,
      review_agent.build_messages domain tone paper_text language
      = Ok [ {| role := Py.lit "system";
                content := system_of domain tone |};
             {| role := Py.lit "user";
                content := prefix_of domain language ++ paper_text |} ].
Proof.
  exists (fun domain tone =>
            Py.lit "You are a seasoned reviewer in " ++ domain ++ Py.lit ". "
            ++ Py.lit "Maintain a strict, skeptical, concise tone: " ++ tone
            ++ Py.lit ". "
            ++ Py.lit "Respond using the requested language.").
  exists (fun domain language =>
            match Format.format
                    (if Py.startswith (Py.lower language) (Py.lit "zh")
                     then review_agent.template_zh
                     else review_agent.template_en)
                    [(Py.lit "domain", domain); (Py.lit "paper", [])] with
            | Ok prefix => prefix
            | Raise _ => []
            end).
  intros domain tone language paper_text.
  unfold review_agent.build_messages. cbv zeta.
  assert (T : exists prefix,
             forall paper,
               Format.format
                 (if Py.startswith (Py.lower language) (Py.lit "zh")
                  then review_agent.template_zh
                  else review_agent.template_en)
                 [(Py.lit "domain", domain); (Py.lit "paper", paper)]
               = Ok (prefix ++ paper)).
  { destruct (Py.startswith (Py.lower language) (Py.lit "zh")).
    - exact (format_appends_paper _ domain template_zh_tail).
    - exact (format_appends_paper _ domain template_en_tail). }
  destruct T as [prefix Hp]. cbv beta. rewrite (Hp paper_text).
  match goal with
  | |- context [Format.format ?t ?a] =>
    replace (Format.format t a) with (@Ok str (prefix ++ []))
      by (symmetry; exact (Hp []))
  end.
  rewrite app_nil_r. reflexivity.
Qed.

(** ** What [main] does with the answer *)

(** X2: what [main] does with the answer of the model.  With [--output]
    set to a path that is not empty the file is opened for writing first,
    which creates or empties it; the review is written and the file
    closed; only then the line [Saved review to <path>] is printed.  When
    opening fails nothing is written and nothing printed; when writing or
    closing fails the file has been created, nothing is printed, and
    [main] ends with that exception (the one of closing when both fail).
    Without [--output], or with an empty one, the review itself is
    printed and no file is touched.  The outcome of [main] is then the
    outcome of [print]. *)
Theorem main_writes_or_prints (env : Env) (args : review_agent.Namespace)
        (raw : str) (tr tc : list Event) (client : openai.Client)
        (messages : list Message) (review : str) :
  review_agent.read_paper (review_agent.paper args) env = (Ok raw, tr) ->
  Py.strip raw <> [] ->
  OpenAI env (review_agent.api_key args) (review_agent.base_url args)
  = Ok client ->
  review_agent.build_messages (review_agent.domain args)
    (review_agent.tone args) (Py.strip raw) (review_agent.language args)
  = Ok messages ->
  review_agent.call_model client (review_agent.model args) messages
    (review_agent.temperature args) env = (Ok review, tc) ->
  let new := ClientNew (review_agent.api_key args)
                       (review_agent.base_url args) in
  (forall c out,
      review_agent.output args = Some (c :: out) ->
      let path := c :: out in
      let saved := Py.lit "Saved review to " ++ path in
      (forall e,
          open_write env path = Raise e ->
          review_agent.main args env
          = (Raise e, tr ++ new :: tc ++ [FileCreate path]))
      /\ (forall e,
             open_write env path = Ok tt ->
             file_close env path = Raise e ->
             review_agent.main args env
             = (Raise e,
                tr ++ new :: tc
                ++ [FileCreate path; FileWrite path review; FileClose path]))
      /\ (forall e,
             open_write env path = Ok tt ->
             file_write env path review = Raise e ->
             file_close env path = Ok tt ->
             review_agent.main args env
             = (Raise e,
                tr ++ new :: tc
                ++ [FileCreate path; FileWrite path review; FileClose path]))
      /\ (open_write env path = Ok tt ->
          file_write env path review = Ok tt ->
          file_close env path = Ok tt ->
          review_agent.main args env
          = (print env saved,
             tr ++ new :: tc
             ++ [FileCreate path; FileWrite path review; FileClose path;
                 Print saved])))
  /\ (review_agent.output args = None
      \/ review_agent.output args = Some [] ->
      review_agent.main args env
      = (print env review, tr ++ new :: tc ++ [Print review])).
Proof.
  intros Hr Hne Hc Hm Hcall new. apply truthy_nonempty in Hne.
  rewrite main_run, Hr, Hne, Hc, Hm, Hcall. cbn [negb]. cbv zeta.
  fold new. split.
  - intros c out ->. split; [| split; [| split]].
    + intros e ->. reflexivity.
    + intros e -> ->.
      destruct (file_write env (c :: out) review); reflexivity.
    + intros e -> -> ->. reflexivity.
    + intros -> -> ->. reflexivity.
  - intros [-> | ->]; reflexivity.
Qed.

Lemma main_writes_or_prints_witness :
  exists tc,
    review_agent.main
      (Sample2.args_out Sample2.sample_txt (Some Sample2.out_txt)) Sample.env
    = (Ok tt,
       [FileOpen Sample2.sample_txt]
       ++ ClientNew (Some Sample.test_model) None
          :: tc
          ++ [FileCreate Sample2.out_txt;
              FileWrite Sample2.out_txt Sample.reply;
              FileClose Sample2.out_txt;
              Print (Py.lit "Saved review to " ++ Sample2.out_txt)])
    /\ review_agent.main
         (Sample2.args_out Sample2.sample_txt (Some Sample2.out_txt))
         Sample2.env_disk_full
       = (Raise OSError,
          [FileOpen Sample2.sample_txt]
          ++ ClientNew (Some Sample.test_model) None
             :: tc
             ++ [FileCreate Sample2.out_txt;
                 FileWrite Sample2.out_txt Sample.reply;
                 FileClose Sample2.out_txt]).
Proof.
  destruct (build_messages_shape (Py.lit "CV")
              (Py.lit "mean reviewer who is strict but fair")
              (Py.strip Sample2.paper_body) (Py.lit "en"))
    as [s [u [Hm _]]].
  eexists. split.
  - refine (proj2 (proj2 (proj2
              (proj1 (main_writes_or_prints Sample.env
                        (Sample2.args_out Sample2.sample_txt
                                          (Some Sample2.out_txt))
                        Sample2.paper_body [FileOpen Sample2.sample_txt] _
                        {| openai.api_key := Some Sample.test_model;
                           openai.base_url := None |}
                        _ Sample.reply eq_refl _ eq_refl Hm _)
                     _ _ eq_refl)))
              eq_refl eq_refl eq_refl).
    + discriminate.
    + rewrite call_model_run. reflexivity.
  - refine (proj1 (proj2 (proj2
              (proj1 (main_writes_or_prints Sample2.env_disk_full
                        (Sample2.args_out Sample2.sample_txt
                                          (Some Sample2.out_txt))
                        Sample2.paper_body [FileOpen Sample2.sample_txt] _
                        {| openai.api_key := Some Sample.test_model;
                           openai.base_url := None |}
                        _ Sample.reply eq_refl _ eq_refl Hm _)
                     _ _ eq_refl)))
              OSError eq_refl eq_refl eq_refl).
    + discriminate.
    + rewrite call_model_run. reflexivity.
Defined.

Lemma ingestion_not_output (tr : list Event) (ev : Event) :
  Forall (fun ev => ingestion ev = true) tr ->
  In ev tr -> is_output ev = true -> False.
Proof.
  intros H Hin Hout. rewrite Forall_forall in H. specialize (H _ Hin).
  destruct ev; discriminate.
Qed.

(** X3: [main] touches the output file and standard output only after
    the model has answered, and only with that answer.  Every call that
    opens, writes or closes a file for output or prints a line is made in
    a run in which the model returned a review, and it is one of: print
    that review (when there is no [--output], or an empty one); open the
    [--output] path for writing; write the whole review to it; close it;
    print [Saved review to <path>].  So a run that fails before the model
    has answered makes no such call and leaves no output at all.  (The
    trace holds the calls made, also the one that raised.) *)
Theorem main_output_after_answer (env : Env)
        (args : review_agent.Namespace) (ev : Event) :
  In ev (snd (review_agent.main args env)) ->
  is_output ev = true ->
  exists client messages review tc,
    review_agent.call_model client (review_agent.model args) messages
      (review_agent.temperature args) env = (Ok review, tc)
    /\ ((ev = Print review
         /\ (review_agent.output args = None
             \/ review_agent.output args = Some []))
        \/ exists path,
            review_agent.output args = Some path
            /\ path <> []
            /\ (ev = FileCreate path
                \/ ev = FileWrite path review
                \/ ev = FileClose path
                \/ ev = Print (Py.lit "Saved review to " ++ path))).
Proof.
  intros Hin Hout.
  pose proof (read_paper_ingestion env (review_agent.paper args)) as Htr.
  rewrite main_run in Hin.
  destruct (review_agent.read_paper (review_agent.paper args) env)
    as [[raw|e0] tr]; cbn [snd] in Htr.
  2:{ elim (ingestion_not_output tr ev Htr Hin Hout). }
  assert (Hno : In ev tr -> False)
    by (intros H; exact (ingestion_not_output tr ev Htr H Hout)).
  destruct (negb (Py.truthy (Py.strip raw))); [elim (Hno Hin) |].
  cbv zeta in Hin.
  destruct (OpenAI env _ _) as [client|e0].
  2:{ cbn [snd] in Hin. apply in_app_or in Hin.
      destruct Hin as [H | [H | []]]; [elim (Hno H) |].
      subst ev. discriminate Hout. }
  destruct (review_agent.build_messages _ _ _ _) as [messages|e0].
  2:{ cbn [snd] in Hin. apply in_app_or in Hin.
      destruct Hin as [H | [H | []]]; [elim (Hno H) |].
      subst ev. discriminate Hout. }
  destruct (review_agent.call_model client _ messages _ env)
    as [[review|e0] tc] eqn:Hc.
  2:{ apply call_model_trace_eq in Hc. subst tc.
      cbn [snd] in Hin. apply in_app_or in Hin.
      destruct Hin as [H | [H | [H | []]]]; [elim (Hno H) | |];
        subst ev; discriminate Hout. }
  pose proof (call_model_trace_eq _ _ _ _ _ _ _ Hc) as Etc.
  exists client, messages, review, tc. split; [exact Hc |].
  subst tc. clear Hc.
  destruct (review_agent.output args) as [[|c out]|].
  - left. cbn [snd app] in Hin. apply in_app_or in Hin.
    destruct Hin as [H | [H | [H | [H | []]]]]; [elim (Hno H) | | |];
      subst ev; try discriminate Hout.
    split; [reflexivity | auto].
  - right. exists (c :: out).
    split; [reflexivity | split; [discriminate |]].
    cbv zeta in Hin.
    destruct (open_write env (c :: out));
      [destruct (file_write env (c :: out) review);
       destruct (file_close env (c :: out)) |];
      cbn [snd app] in Hin; apply in_app_or in Hin;
      (destruct Hin as [H | H]; [elim (Hno H) |]);
      cbn [In] in H;
      repeat (destruct H as [H | H];
              [subst ev; try discriminate Hout; auto |]);
      elim H.
  - left. cbn [snd app] in Hin. apply in_app_or in Hin.
    destruct Hin as [H | [H | [H | [H | []]]]]; [elim (Hno H) | | |];
      subst ev; try discriminate Hout.
    split; [reflexivity | auto].
Qed.

Lemma sample_main_saved :
  exists messages,
    review_agent.main
      (Sample2.args_out Sample2.sample_txt (Some Sample2.out_txt)) Sample.env
    = (Ok tt,
       [FileOpen Sample2.sample_txt;
        ClientNew (Some Sample.test_model) None;
        ChatCreate {| openai.api_key := Some Sample.test_model;
                      openai.base_url := None |}
                   Sample.test_model (1 # 5) messages;
        FileCreate Sample2.out_txt;
        FileWrite Sample2.out_txt Sample.reply;
        FileClose Sample2.out_txt;
        Print (Py.lit "Saved review to " ++ Sample2.out_txt)]).
Proof.
  destruct (build_messages_shape (Py.lit "CV")
              (Py.lit "mean reviewer who is strict but fair")
              (Py.strip Sample2.paper_body) (Py.lit "en"))
    as [s [u [Hm _]]].
  eexists. rewrite main_run.
  change (review_agent.read_paper
            (review_agent.paper (Sample2.args_out Sample2.sample_txt
                                   (Some Sample2.out_txt)))
            Sample.env)
    with (@Ok str Sample2.paper_body, [FileOpen Sample2.sample_txt]).
  cbn [negb Py.truthy Py.strip]. cbv zeta.
  change (OpenAI Sample.env _ _)
    with (@Ok openai.Client
              {| openai.api_key := Some Sample.test_model;
                 openai.base_url := None |}).
  cbv iota beta.
  change (review_agent.build_messages _ _ _ _)
    with (review_agent.build_messages (Py.lit "CV")
            (Py.lit "mean reviewer who is strict but fair")
            (Py.strip Sample2.paper_body) (Py.lit "en")).
  rewrite Hm, call_model_run. reflexivity.
Qed.

Lemma main_output_after_answer_witness :
  exists client messages tc,
    review_agent.call_model client Sample.test_model messages (1 # 5)
      Sample.env
    = (Ok Sample.reply, tc).
Proof.
  destruct sample_main_saved as [sent Hrun].
  destruct (main_output_after_answer Sample.env
              (Sample2.args_out Sample2.sample_txt (Some Sample2.out_txt))
              (FileWrite Sample2.out_txt Sample.reply))
    as [client [messages [review [tc [Hc Hev]]]]].
  - rewrite Hrun. cbn [snd In]. auto 6.
  - reflexivity.
  - exists client, messages, tc.
    destruct Hev as [[Hev _] | [path [_ [_ Hev]]]]; [discriminate Hev |].
    destruct Hev as [Hev | [Hev | [Hev | Hev]]]; try discriminate Hev.
    injection Hev as _ <-. exact Hc.
Defined.
